(** * Raise SDK (@zemyth/raise-sdk): shallow embedding and verification

    The TypeScript client of the Raise program is embedded function by
    function.  Modelling conventions:

    - [bigint] and [BN] values are unbounded integers ([Z]); the partial
      conversions of bn.js ([toNumber], [toArrayLike], the constructor from a
      number) return a [result];
    - a JavaScript [number] that holds a fraction (percentages "as decimal")
      is an IEEE-754 binary64 value ([PrimFloat.float]); a [number] that holds
      a Unix time in seconds, a count of days, an index or a whole percentage
      is the integer it denotes ([Z]), on which double arithmetic is exact
      below 2^53;
    - a [Buffer] is a list of bytes;
    - code that can throw returns a [result];
    - the clock ([Date.now]), the ledger ([rpc]) and the address hash
      ([PublicKey.findProgramAddressSync]) are explicit parameters. *)

From Stdlib Require Import ZArith List String Ascii Bool Lia Sorted.
From Stdlib Require Import Floats Uint63.
From Stdlib Require Import DecimalString DecimalZ DecimalPos.
From Stdlib Require Import Strings.Byte.
Import ListNotations.

Local Open Scope string_scope.
Local Open Scope list_scope.
Local Open Scope Z_scope.

(* ================================================================= *)
(** ** JavaScript and library primitives used by the SDK *)
(* ================================================================= *)

Module Js.

(** Exceptions that the modelled code can raise. *)
Inductive exn : Type :=
| AssertionError (msg : string)   (* bn.js [assert] *)
| RangeError (msg : string)       (* [BigInt] of a non-integer number *)
| AnchorError (code : Z) (errorMessage : string) (message : string)
                                  (* rejection by the ledger *)
| LibraryError (msg : string).    (* raised by an external collaborator *)

Inductive result (A : Type) : Type :=
| Ok (a : A)
| Throw (e : exn).
Arguments Ok {A} a.
Arguments Throw {A} e.

Definition bind {A B} (r : result A) (k : A -> result B) : result B :=
  match r with
  | Ok a => k a
  | Throw e => Throw e
  end.

Definition is_ok {A} (r : result A) : bool :=
  match r with Ok _ => true | Throw _ => false end.

(** [Buffer]: a byte string. *)
Definition Buffer : Type := list Byte.byte.

(** Node stores [v & 255] for each element [v] of an array handed to
    [Buffer.from]: entries outside 0..255 are truncated to fit. *)
Definition byte_of_Z (v : Z) : Byte.byte :=
  match Byte.of_N (Z.to_N (v mod 256)) with
  | Some b => b
  | None => Byte.x00
  end.

Definition Buffer_from_array (a : list Z) : Buffer := map byte_of_Z a.

(** [Buffer.from(str)]: the UTF-8 bytes of the string. *)
Definition Buffer_from_string (s : string) : Buffer := list_byte_of_string s.

(** Little-endian digits in base 256, [len] of them. *)
Fixpoint le_bytes (len : nat) (v : Z) : Buffer :=
  match len with
  | O => []
  | S n => byte_of_Z v :: le_bytes n (v / 256)
  end.

(** bn.js [toArrayLike(Buffer, 'le', length)]: the magnitude of the number
    on [length] bytes; asserts that it fits. *)
Definition BN_toArrayLike_le (b : Z) (len : nat) : result Buffer :=
  if Z.abs b <? 256 ^ Z.of_nat len
  then Ok (le_bytes len (Z.abs b))
  else Throw (AssertionError "byte array longer than desired length").

(** bn.js [toNumber]: asserts that the number fits in 53 bits. *)
Definition BN_toNumber (b : Z) : result Z :=
  if Z.abs b <? 2 ^ 53
  then Ok b
  else Throw (AssertionError "Number can only safely store up to 53 bits").

(** bn.js [new BN(n)] for an integral [number] [n]: asserts [|n| < 2^53]. *)
Definition BN_of_number (n : Z) : result Z :=
  if Z.abs n <? 2 ^ 53
  then Ok n
  else Throw (AssertionError "Assertion failed").

(** *** Fractional numbers: IEEE-754 binary64 *)

(** The double that holds the integer [n]; exact for [|n| < 2^53]. *)
Definition number_of_Z (n : Z) : float :=
  if n <? 0 then (- of_uint63 (Uint63.of_Z (- n)))%float
  else of_uint63 (Uint63.of_Z n).

(** The signed mantissa of a finite double [(-1)^s * m * 2^e]. *)
Definition signed (s : bool) (m : positive) : Z :=
  if s then Z.neg m else Z.pos m.

(** [Math.floor]: the greatest integer below or equal to the argument;
    NaN, the infinities and the zeros are returned unchanged.  A double
    with a non-negative exponent is integral already. *)
Definition Math_floor (x : float) : float :=
  match Prim2SF x with
  | S754_finite s m e =>
      if 0 <=? e then x
      else number_of_Z (signed s m / 2 ^ (- e))
  | _ => x
  end.

(** [BigInt(x)] for a number [x]: the integer that [x] holds; a
    [RangeError] when [x] is not an integer (NaN and the infinities
    included). *)
Definition BigInt (x : float) : result Z :=
  match Prim2SF x with
  | S754_zero _ => Ok 0
  | S754_finite s m e =>
      if 0 <=? e then Ok (signed s m * 2 ^ e)
      else if signed s m mod 2 ^ (- e) =? 0 then Ok (signed s m / 2 ^ (- e))
      else Throw (RangeError "The number cannot be converted to a BigInt because it is not an integer")
  | _ => Throw (RangeError "The number cannot be converted to a BigInt because it is not an integer")
  end.

(** *** Whole numbers in other guises *)

(** [Number.isSafeInteger] on an integral number. *)
Definition Number_isSafeInteger (n : Z) : bool := Z.abs n <=? 2 ^ 53 - 1.

(** The decimal text of an integer: [String(n)] and a template literal for
    an integral number, [toString()] for a bigint and for a [BN]. *)
Definition decimal_string (n : Z) : string := NilZero.string_of_int (Z.to_int n).

(** The integer that a decimal text denotes: [BigInt(s)] and [new BN(s)]
    on the texts that [toString()] produces (an optional minus sign, then
    digits); any other text is refused. *)
Definition decimal_value (s : string) : result Z :=
  match NilZero.int_of_string s with
  | Some d => Ok (Z.of_int d)
  | None => Throw (LibraryError "Invalid character")
  end.

(** [Number(b)] for a bigint [b]: the nearest double, ties to even. *)
Definition Number_of_bigint (b : Z) : float :=
  SF2Prim (binary_normalize prec emax b 0 false).

(** *** Strings *)

(** [s.includes(pat)]. *)
Definition String_includes (pat s : string) : bool :=
  match String.index 0 pat s with
  | Some _ => true
  | None => false
  end.

(** An index argument of [slice], resolved against the length: a negative
    index counts from the end. *)
Definition slice_index (len i : Z) : Z :=
  if i <? 0 then Z.max (len + i) 0 else Z.min i len.

(** [s.slice(start, end)]; [end] may be left out. *)
Definition String_slice (s : string) (start : Z) (end_ : option Z) : string :=
  let len := Z.of_nat (String.length s) in
  let from := slice_index len start in
  let to := match end_ with
            | Some e => slice_index len e
            | None => len
            end in
  substring (Z.to_nat from) (Z.to_nat (Z.max (to - from) 0)) s.

(** [toUpperCase] on a character of an ASCII string. *)
Definition upper_ascii (c : ascii) : ascii :=
  let n := nat_of_ascii c in
  if ((97 <=? n) && (n <=? 122))%nat then ascii_of_nat (n - 32) else c.

Fixpoint toUpperCase (s : string) : string :=
  match s with
  | EmptyString => EmptyString
  | String c rest => String (upper_ascii c) (toUpperCase rest)
  end.

(** [error.message].  A rejection by the ledger carries two texts:
    [error.error.errorMessage], the message of the program error, and
    [error.message], the message of the [Error] it extends, which Anchor
    makes of the program's log lines. *)
Definition error_message (e : exn) : string :=
  match e with
  | AssertionError m => m
  | RangeError m => m
  | AnchorError _ _ message => message
  | LibraryError m => m
  end.

End Js.

Import Js.

Notation "x <- c1 ;; c2" := (Js.bind c1 (fun x => c2))
(at level 61, c1 at next level, right associativity).

(* ================================================================= *)
(** ** constants/index.ts *)
(* ================================================================= *)

Module Constants.

(** [SEEDS]: the textual prefix of every derived address. *)
Module SEEDS.
Definition PROJECT := "project".
Definition MILESTONE := "milestone".
Definition INVESTMENT := "investment".
Definition VOTE := "vote".
Definition ESCROW := "escrow".
Definition PIVOT := "pivot".
Definition PIVOT_PROPOSAL := "pivot_proposal".
Definition TGE_ESCROW := "tge_escrow".
Definition TGE_ESCROW_VAULT := "tge_escrow_vault".
Definition SCAM_REPORT := "scam_report".
Definition ADMIN_CONFIG := "admin-config".
Definition NFT_MINT := "nft_mint".
Definition AUTHORITY := "authority".
End SEEDS.

(** The element type of [findTierIndex]'s array: [{ amount: bigint }]. *)
Record TierAmount : Type := { amount : Z }.

(** The body of the [for] loop of [findTierIndex], with [n = i + 1]:
    [i] runs from [n - 1] down to [0]; the loop is left at the first [i]
    with [amount >= tiers[i].amount]; falling out of it returns [null]. *)
Fixpoint findTierIndex_from (tiers : list TierAmount) (amt : Z) (n : nat)
  : option nat :=
  match n with
  | O => None
  | S i =>
      match nth_error tiers i with
      | Some t => if amt >=? amount t then Some i
                  else findTierIndex_from tiers amt i
      | None => None (* unreachable: i < tiers.length *)
      end
  end.

Definition findTierIndex (tiers : list TierAmount) (amt : Z) : option nat :=
  findTierIndex_from tiers amt (List.length tiers).

(** *** Legacy tiers *)

Inductive InvestmentTier : Type := Bronze | Silver | Gold | Platinum | Diamond.

(** [TIER_MINIMUMS], in USDC lamports. *)
Definition TIER_MINIMUMS (t : InvestmentTier) : Z :=
  match t with
  | Bronze => 100000000
  | Silver => 500000000
  | Gold => 1000000000
  | Platinum => 5000000000
  | Diamond => 10000000000
  end.

(** [TIER_VOTE_MULTIPLIERS], scaled by 100. *)
Definition TIER_VOTE_MULTIPLIERS (t : InvestmentTier) : Z :=
  match t with
  | Bronze => 100
  | Silver => 120
  | Gold => 150
  | Platinum => 200
  | Diamond => 300
  end.

(** [TIER_TOKEN_MULTIPLIERS]. *)
Definition TIER_TOKEN_MULTIPLIERS (t : InvestmentTier) : Z :=
  match t with
  | Bronze => 100
  | Silver => 120
  | Gold => 150
  | Platinum => 200
  | Diamond => 300
  end.

Definition getTierFromAmount (amt : Z) : InvestmentTier :=
  if amt >=? TIER_MINIMUMS Diamond then Diamond
  else if amt >=? TIER_MINIMUMS Platinum then Platinum
  else if amt >=? TIER_MINIMUMS Gold then Gold
  else if amt >=? TIER_MINIMUMS Silver then Silver
  else Bronze.

(** [TIER_VOTE_MULTIPLIERS[tier] / 100], a division of numbers. *)
Definition getVoteMultiplier (amt : Z) : float :=
  let tier := getTierFromAmount amt in
  (number_of_Z (TIER_VOTE_MULTIPLIERS tier) / 100)%float.

Definition getTokenMultiplier (amt : Z) : float :=
  let tier := getTierFromAmount amt in
  (number_of_Z (TIER_TOKEN_MULTIPLIERS tier) / 100)%float.

(** *** USDC amounts *)

Module USDC.
Definition DECIMALS : Z := 6.

(** [BigInt(Math.floor(usdc * 10 ** 6))]. *)
Definition toAmount (usdc : float) : result Z :=
  BigInt (Math_floor (usdc * 1000000)%float).

(** [Number(lamports) / 10 ** 6]. *)
Definition fromAmount (lamports : Z) : float :=
  (Number_of_bigint lamports / 1000000)%float.
End USDC.

End Constants.

(* ================================================================= *)
(** ** utils/index.ts *)
(* ================================================================= *)

Module Utils.

(** [bps / 10000] on numbers. *)
Definition bpsToPercent (bps : float) : float := (bps / 10000)%float.

(** [Math.floor(percent * 10000)]. *)
Definition percentToBps (percent : float) : float :=
  Math_floor (percent * 10000)%float.

(** [(amount * BigInt(Math.floor(percentage * 100))) / 10000n]; the
    division of two bigints truncates toward zero ([Z.quot]). *)
Definition percentageOf (amount : Z) (percentage : float) : result Z :=
  k <- BigInt (Math_floor (percentage * 100)%float) ;;
  Ok (Z.quot (amount * k) 10000).

(** [percentages.reduce((acc, p) => acc + p, 0) === 100], on whole
    percentages. *)
Definition validateMilestonePercentages (percentages : list Z) : bool :=
  let sum := fold_left (fun acc p => acc + p) percentages 0 in
  sum =? 100.

(** *** BN utilities *)

(** [bnToNumber]: [toNumber] first, then the check of the result. *)
Definition bnToNumber (bn : Z) : result Z :=
  num <- BN_toNumber bn ;;
  if negb (Number_isSafeInteger num)
  then Throw (LibraryError
                ("BN value " ++ decimal_string bn
                 ++ " is too large to convert to number")%string)
  else Ok num.

(** [BigInt(bn.toString())]. *)
Definition bnToBigInt (bn : Z) : result Z := decimal_value (decimal_string bn).

(** [new BN(value.toString())]. *)
Definition bigIntToBN (value : Z) : result Z := decimal_value (decimal_string value).

(** *** Time utilities *)

(** A [number | BN] argument. *)
Inductive NumberOrBN : Type :=
| Num (n : Z)
| Bn (b : Z).

(** [typeof timestamp === 'number' ? timestamp : timestamp.toNumber()]. *)
Definition timestamp_seconds (timestamp : NumberOrBN) : result Z :=
  match timestamp with
  | Num n => Ok n
  | Bn b => BN_toNumber b
  end.

(** [Math.floor(Date.now() / 1000)]. *)
Definition getCurrentTimestamp (Date_now : Z) : Z := Date_now / 1000.

Definition hasTimestampPassed (Date_now : Z) (timestamp : NumberOrBN) : result bool :=
  ts <- timestamp_seconds timestamp ;;
  Ok (getCurrentTimestamp Date_now >? ts).

Definition timeRemaining (Date_now : Z) (timestamp : NumberOrBN) : result Z :=
  ts <- timestamp_seconds timestamp ;;
  let remaining := ts - getCurrentTimestamp Date_now in
  Ok (if remaining >? 0 then remaining else 0).

(** [formatDuration], on a whole number of seconds. *)
Definition formatDuration (seconds : Z) : string :=
  if seconds <=? 0 then "0s"
  else
    let days := seconds / 86400 in
    let hours := Z.rem seconds 86400 / 3600 in
    let minutes := Z.rem seconds 3600 / 60 in
    let secs := Z.rem seconds 60 in
    let parts : list string := [] in
    let parts := if days >? 0 then parts ++ [decimal_string days ++ "d"]%string else parts in
    let parts := if hours >? 0 then parts ++ [decimal_string hours ++ "h"]%string else parts in
    let parts := if minutes >? 0 then parts ++ [decimal_string minutes ++ "m"]%string else parts in
    let parts := if (secs >? 0) && (days =? 0)
                 then parts ++ [decimal_string secs ++ "s"]%string else parts in
    let joined := String.concat " " parts in
    if String.eqb joined "" then "0s" else joined.

(** *** Account utilities *)

(** [shortenPublicKey], on the text [str = pubkey.toString()]. *)
Definition shortenPublicKey (str : string) (chars : Z) : string :=
  if Z.of_nat (String.length str) <=? chars * 2 + 3 then str
  else (String_slice str 0 (Some chars) ++ "..."
        ++ String_slice str (- chars) None)%string.

(** *** Transaction utilities *)

Section Retry.
Variable Tx : Type.

(** [connection.getTransaction]: its answer to the call number [k] (from
    0), [null] being [None]; it may reject. *)
Variable getTransaction : nat -> result (option Tx).

(** The [for] loop of [getTransactionWithRetry] from the attempt [i], with
    [fuel] attempts left; the result comes with the number of calls made
    and the milliseconds asked of [setTimeout] in total. *)
Fixpoint retry_from (failure : exn) (fuel i : nat) (waited : Z)
  : result Tx * nat * Z :=
  match fuel with
  | O => (Throw failure, i, waited)
  | S fuel' =>
      match getTransaction i with
      | Throw e => (Throw e, S i, waited)
      | Ok (Some tx) => (Ok tx, S i, waited)
      | Ok None =>
          retry_from failure fuel' (S i) (waited + 1000 * (Z.of_nat i + 1))
      end
  end.

Definition getTransactionWithRetry (signature : string) (maxRetries : Z)
  : result Tx * nat * Z :=
  retry_from
    (LibraryError ("Transaction " ++ signature ++ " not found after "
                   ++ decimal_string maxRetries ++ " retries")%string)
    (Z.to_nat maxRetries) 0 0.

End Retry.

End Utils.

(* ================================================================= *)
(** ** errors/index.ts *)
(* ================================================================= *)

Module Errors.

(** The categories named by the section comments of [ERROR_CODES] (and by
    the table "Error Code Categories" of the README). *)
Inductive Category : Type :=
| StateTransition | Authorization | Investment | Milestone
| TGE | Pivot | Refund | Scam.

(** The numeric range reserved for each category, as the comments give
    it: "State Transition Errors (6000-6099)" and so on. *)
Definition category_range (c : Category) : Z * Z :=
  match c with
  | StateTransition => (6000, 6099)
  | Authorization => (6100, 6199)
  | Investment => (6200, 6299)
  | Milestone => (6300, 6399)
  | TGE => (6400, 6499)
  | Pivot => (6500, 6599)
  | Refund => (6800, 6899)
  | Scam => (6900, 6999)
  end.

Definition all_categories : list Category :=
  [StateTransition; Authorization; Investment; Milestone;
   TGE; Pivot; Refund; Scam].

Definition in_range (c : Category) (code : Z) : bool :=
  (fst (category_range c) <=? code) && (code <=? snd (category_range c)).

(** [ERROR_CODES], each entry with the category whose comment it stands
    under. *)
Definition ERROR_CODES : list (Category * string * Z) :=
  [ (* State Transition Errors (6000-6099) *)
    (StateTransition, "InvalidStateTransition", 6000);
    (StateTransition, "ProjectNotInOpenState", 6001);
    (StateTransition, "ProjectNotInProgress", 6002);
    (StateTransition, "MilestoneNotUnderReview", 6003);
    (StateTransition, "VotingPeriodEnded", 6004);
    (StateTransition, "VotingPeriodNotEnded", 6005);
    (StateTransition, "MilestoneNotPassed", 6006);
    (StateTransition, "MilestoneAlreadyUnlocked", 6007);
    (StateTransition, "ProjectAlreadyFunded", 6008);
    (StateTransition, "ProjectNotFunded", 6009);
    (* Authorization Errors (6100-6199) *)
    (Authorization, "UnauthorizedFounder", 6100);
    (Authorization, "UnauthorizedAdmin", 6101);
    (Authorization, "NotInvestor", 6102);
    (Authorization, "AlreadyVoted", 6103);
    (* Investment Errors (6200-6299) *)
    (Investment, "InvestmentBelowMinimum", 6200);
    (Investment, "FundingGoalExceeded", 6201);
    (Investment, "InvalidTier", 6202);
    (Investment, "CoolingOffPeriodActive", 6203);
    (Investment, "CoolingOffPeriodExpired", 6204);
    (* Milestone Errors (6300-6399) *)
    (Milestone, "InvalidMilestoneIndex", 6300);
    (Milestone, "MilestonePercentageInvalid", 6301);
    (Milestone, "TotalPercentageExceeded", 6302);
    (Milestone, "MilestoneNotInProgress", 6303);
    (Milestone, "MilestoneNotApproved", 6304);
    (* TGE Errors (6400-6499) *)
    (TGE, "TgeDateNotSet", 6400);
    (TGE, "TgeDateAlreadySet", 6401);
    (TGE, "TgeDateTooSoon", 6402);
    (TGE, "TgeDateTooLate", 6403);
    (TGE, "TgeNotReached", 6404);
    (TGE, "TokensAlreadyClaimed", 6405);
    (TGE, "InsufficientTokensDeposited", 6406);
    (* Pivot Errors (6500-6599) *)
    (Pivot, "PivotAlreadyProposed", 6500);
    (Pivot, "NoPivotProposed", 6501);
    (Pivot, "PivotNotApproved", 6502);
    (Pivot, "PivotWindowNotEnded", 6503);
    (Pivot, "PivotWindowEnded", 6504);
    (Pivot, "AlreadyWithdrawnFromPivot", 6505);
    (* Refund Errors (6800-6899) *)
    (Refund, "RefundAlreadyClaimed", 6800);
    (Refund, "RefundNotAvailable", 6801);
    (Refund, "ProjectNotAbandoned", 6802);
    (* Scam Errors (6900-6999) *)
    (Scam, "ScamReportPeriodEnded", 6900);
    (Scam, "ScamAlreadyReported", 6901);
    (Scam, "ScamNotConfirmed", 6902);
    (Scam, "HoldbackAlreadyReleased", 6903);
    (Scam, "HoldbackPeriodNotEnded", 6904) ].

Definition entry_category (e : Category * string * Z) : Category := fst (fst e).
Definition entry_name (e : Category * string * Z) : string := snd (fst e).
Definition entry_code (e : Category * string * Z) : Z := snd e.

(** [ERROR_CODES.name]. *)
Definition code_of (name : string) : Z :=
  match find (fun e => String.eqb (entry_name e) name) ERROR_CODES with
  | Some e => entry_code e
  | None => 0
  end.

(** [ERROR_MESSAGES], keyed by [ERROR_CODES.name]. *)
Definition ERROR_MESSAGES : list (Z * string) :=
  map (fun nm => (code_of (fst nm), snd nm))
  [ ("InvalidStateTransition", "Invalid project state transition");
    ("ProjectNotInOpenState", "Project must be in Open state to accept investments");
    ("ProjectNotInProgress", "Project must be InProgress to perform this action");
    ("MilestoneNotUnderReview", "Milestone must be under review to vote");
    ("VotingPeriodEnded", "Voting period has ended");
    ("VotingPeriodNotEnded", "Voting period has not ended yet");
    ("MilestoneNotPassed", "Milestone did not pass voting");
    ("MilestoneAlreadyUnlocked", "Milestone funds already unlocked");
    ("ProjectAlreadyFunded", "Project has already reached funding goal");
    ("ProjectNotFunded", "Project has not reached funding goal");
    ("UnauthorizedFounder", "Only the project founder can perform this action");
    ("UnauthorizedAdmin", "Only the admin can perform this action");
    ("NotInvestor", "You must be an investor to perform this action");
    ("AlreadyVoted", "You have already voted on this");
    ("InvestmentBelowMinimum", "Investment amount below minimum tier requirement");
    ("FundingGoalExceeded", "Investment would exceed funding goal");
    ("InvalidTier", "Invalid investment tier");
    ("CoolingOffPeriodActive", "Investment is within 24-hour cooling-off period");
    ("CoolingOffPeriodExpired", "Cooling-off period has expired, cannot cancel");
    ("InvalidMilestoneIndex", "Invalid milestone index");
    ("MilestonePercentageInvalid", "Milestone percentage must be between 1-100");
    ("TotalPercentageExceeded", "Total milestone percentages exceed 100%");
    ("MilestoneNotInProgress", "Milestone must be in progress");
    ("MilestoneNotApproved", "Milestone must be approved first");
    ("TgeDateNotSet", "TGE date has not been set");
    ("TgeDateAlreadySet", "TGE date has already been set");
    ("TgeDateTooSoon", "TGE date must be at least 15 days in the future");
    ("TgeDateTooLate", "TGE date must be within 90 days");
    ("TgeNotReached", "TGE date has not been reached");
    ("TokensAlreadyClaimed", "Tokens have already been claimed");
    ("InsufficientTokensDeposited", "Insufficient tokens deposited by founder");
    ("PivotAlreadyProposed", "A pivot is already pending");
    ("NoPivotProposed", "No pivot has been proposed");
    ("PivotNotApproved", "Pivot has not been approved by admin");
    ("PivotWindowNotEnded", "7-day withdrawal window has not ended");
    ("PivotWindowEnded", "7-day withdrawal window has ended");
    ("AlreadyWithdrawnFromPivot", "Already withdrawn from this pivot");
    ("RefundAlreadyClaimed", "Refund has already been claimed");
    ("RefundNotAvailable", "Refund is not available");
    ("ProjectNotAbandoned", "Project has not been abandoned");
    ("ScamReportPeriodEnded", "30-day scam report period has ended");
    ("ScamAlreadyReported", "Already reported this project for scam");
    ("ScamNotConfirmed", "Scam has not been confirmed");
    ("HoldbackAlreadyReleased", "Holdback has already been released");
    ("HoldbackPeriodNotEnded", "30-day holdback period has not ended") ].

(** [ERROR_MESSAGES[code]]: [undefined] is [None]. *)
Definition message_of (code : Z) : option string :=
  match find (fun cm => fst cm =? code) ERROR_MESSAGES with
  | Some cm => Some (snd cm)
  | None => None
  end.

(** [class RaiseError] (the [logs] are carried along unchanged and are
    left out). *)
Record RaiseError : Type := { code : Z; message : string }.

(** [RaiseError.fromAnchorError]:
    [message = ERROR_MESSAGES[code] || error.error.errorMessage];
    [||] also falls through an empty string. *)
Definition fromAnchorError (errorCode : Z) (errorMessage : string) : RaiseError :=
  let message :=
    match message_of errorCode with
    | Some m => if String.eqb m "" then errorMessage else m
    | None => errorMessage
    end in
  {| code := errorCode; message := message |}.

(** [parseError]: a ledger rejection becomes a [RaiseError]; any other
    error is returned as it is. *)
Definition parseError (e : exn) : RaiseError + exn :=
  match e with
  | AnchorError c m _ => inl (fromAnchorError c m)
  | _ => inr e
  end.

(** [RaiseError.is]. *)
Definition RaiseError_is (e : RaiseError) (errorCode : Z) : bool :=
  code e =? errorCode.

(** What a [catch] clause can receive: an SDK error, another [Error]
    (a ledger rejection included), or a value that is no [Error] at all,
    known by its text [String(error)]. *)
Inductive Thrown : Type :=
| ThrownRaiseError (e : RaiseError)
| ThrownError (e : exn)
| ThrownValue (text : string).

(** [parseError] on any thrown value: a ledger rejection becomes a
    [RaiseError], another [Error] is returned as it is, anything else is
    wrapped in a new [Error] that carries its text. *)
Definition parseThrown (error : Thrown) : Thrown :=
  match error with
  | ThrownError (AnchorError c m _) => ThrownRaiseError (fromAnchorError c m)
  | ThrownRaiseError _ => error
  | ThrownError _ => error
  | ThrownValue text => ThrownError (LibraryError text)
  end.

(** [isRaiseError(error, code?)]. *)
Definition isRaiseError (error : Thrown) (errorCode : option Z) : bool :=
  match error with
  | ThrownRaiseError e =>
      match errorCode with
      | Some c => code e =? c
      | None => true
      end
  | _ => false
  end.

(** [getErrorMessage]. *)
Definition getErrorMessage (error : Thrown) : string :=
  match error with
  | ThrownRaiseError e => message e
  | ThrownError (AnchorError c m _) =>
      match message_of c with
      | Some known => if String.eqb known "" then m else known
      | None => m
      end
  | ThrownError e => error_message e
  | ThrownValue _ => "An unknown error occurred"
  end.

End Errors.

(* ================================================================= *)
(** ** events/index.ts *)
(* ================================================================= *)

Module Events.

(** [EVENT_NAMES]: each key with its value. *)
Definition EVENT_NAMES : list (string * string) :=
  [ ("ProjectCreated", "ProjectCreated");
    ("ProjectApproved", "ProjectApproved");
    ("ProjectFunded", "ProjectFunded");
    ("InvestmentMade", "InvestmentMade");
    ("InvestmentCancelled", "InvestmentCancelled");
    ("MilestoneCreated", "MilestoneCreated");
    ("MilestoneSubmitted", "MilestoneSubmitted");
    ("VoteCast", "VoteCast");
    ("MilestoneVoteFinalized", "MilestoneVoteFinalized");
    ("FundsUnlocked", "FundsUnlocked");
    ("TgeDateSet", "TgeDateSet");
    ("TokensDeposited", "TokensDeposited");
    ("TokensClaimed", "TokensClaimed");
    ("RefundClaimed", "RefundClaimed");
    ("PivotProposed", "PivotProposed");
    ("PivotApproved", "PivotApproved");
    ("PivotFinalized", "PivotFinalized");
    ("MilestoneReworked", "MilestoneReworked") ].

Section WithData.
Variable Data : Type.

(** A member of the union [RaiseEvent]: a name and the data that go with
    it. *)
Record RaiseEvent : Type := { name : string; data : Data }.

(** [events.filter((e) => e.name === name)]. *)
Definition filterEventsByName (events : list RaiseEvent) (wanted : string)
  : list RaiseEvent :=
  filter (fun e => String.eqb (name e) wanted) events.

(** [events.find((e) => e.name === name)]; [undefined] is [None]. *)
Definition findEvent (events : list RaiseEvent) (wanted : string)
  : option RaiseEvent :=
  find (fun e => String.eqb (name e) wanted) events.

End WithData.
End Events.

(* ================================================================= *)
(** ** pdas/index.ts *)
(* ================================================================= *)

(** The part of @solana/web3.js that the SDK calls: public keys, their 32
    bytes, and [PublicKey.findProgramAddressSync(seeds, programId)], which
    hashes the seeds with the program id and returns the address with its
    bump (or throws). *)
Class Web3 : Type := {
  PublicKey : Type;
  toBuffer : PublicKey -> Buffer;
  findProgramAddressSync : list Buffer -> PublicKey -> result (PublicKey * Z)
}.

Module Pdas.
Section Derivation.
Context {W : Web3}.
Import Constants.

(** [ensureBN]: a BN-like value is returned as it is, any other value is
    rebuilt from its decimal string; an identifier is the integer it
    denotes. *)
Definition ensureBN (value : Z) : Z := value.

(** [const [pda] = PublicKey.findProgramAddressSync(seeds, programId);
    return pda;] *)
Definition pda_of (seeds : list Buffer) (programId : PublicKey) : result PublicKey :=
  r <- findProgramAddressSync seeds programId ;; Ok (fst r).

Definition getProjectPDA (projectId : Z) (programId : PublicKey) : result PublicKey :=
  let projectIdBN := ensureBN projectId in
  id8 <- BN_toArrayLike_le projectIdBN 8 ;;
  pda_of [Buffer_from_string SEEDS.PROJECT; id8] programId.

Definition getEscrowPDA (projectId : Z) (programId : PublicKey) : result PublicKey :=
  let projectIdBN := ensureBN projectId in
  id8 <- BN_toArrayLike_le projectIdBN 8 ;;
  pda_of [Buffer_from_string SEEDS.ESCROW; id8] programId.

Definition getMilestonePDA (projectPda : PublicKey) (milestoneIndex : Z)
    (programId : PublicKey) : result PublicKey :=
  pda_of [Buffer_from_string SEEDS.MILESTONE;
          toBuffer projectPda;
          Buffer_from_array [milestoneIndex]] programId.

Definition getInvestmentPDA (projectPda nftMint programId : PublicKey)
  : result PublicKey :=
  pda_of [Buffer_from_string SEEDS.INVESTMENT;
          toBuffer projectPda;
          toBuffer nftMint] programId.

Definition getVotePDA (milestonePda voterKey : PublicKey) (votingRound : Z)
    (programId : PublicKey) : result PublicKey :=
  pda_of [Buffer_from_string SEEDS.VOTE; toBuffer milestonePda;
          toBuffer voterKey; Buffer_from_array [votingRound]] programId.

Definition getPivotProposalPDA (projectPda : PublicKey) (pivotCount : Z)
    (programId : PublicKey) : result PublicKey :=
  pda_of [Buffer_from_string SEEDS.PIVOT;
          toBuffer projectPda;
          Buffer_from_array [pivotCount]] programId.

Definition getTgeEscrowPDA (projectPda programId : PublicKey) : result PublicKey :=
  pda_of [Buffer_from_string SEEDS.TGE_ESCROW; toBuffer projectPda] programId.

Definition getTgeEscrowVaultPDA (projectPda programId : PublicKey) : result PublicKey :=
  pda_of [Buffer_from_string SEEDS.TGE_ESCROW_VAULT; toBuffer projectPda] programId.

Definition getTokenVaultPDA (projectPda programId : PublicKey) : result PublicKey :=
  pda_of [Buffer_from_string "token_vault"; toBuffer projectPda] programId.

Definition getScamReportPDA (projectPda nftMint programId : PublicKey)
  : result PublicKey :=
  pda_of [Buffer_from_string SEEDS.SCAM_REPORT;
          toBuffer projectPda;
          toBuffer nftMint] programId.

Definition getAdminConfigPDA (programId : PublicKey) : result PublicKey :=
  pda_of [Buffer_from_string SEEDS.ADMIN_CONFIG] programId.

Definition getNftMintPDA (projectId : Z) (investor : PublicKey)
    (investmentCount : Z) (programId : PublicKey) : result (PublicKey * Z) :=
  let projectIdBN := ensureBN projectId in
  let countBN := ensureBN investmentCount in
  id8 <- BN_toArrayLike_le projectIdBN 8 ;;
  count8 <- BN_toArrayLike_le countBN 8 ;;
  findProgramAddressSync
    [Buffer_from_string SEEDS.NFT_MINT; id8; toBuffer investor; count8]
    programId.

Definition getProgramAuthorityPDA (programId : PublicKey) : result (PublicKey * Z) :=
  findProgramAddressSync [Buffer_from_string SEEDS.AUTHORITY] programId.

Definition getTokenomicsPDA (projectPda programId : PublicKey) : result PublicKey :=
  pda_of [Buffer_from_string "tokenomics"; toBuffer projectPda] programId.

Definition getTokenMintPDA (projectPda programId : PublicKey) : result PublicKey :=
  pda_of [Buffer_from_string "token_mint"; toBuffer projectPda] programId.

Definition getVaultAuthorityPDA (projectPda programId : PublicKey) : result PublicKey :=
  pda_of [Buffer_from_string "vault_authority"; toBuffer projectPda] programId.

Definition getInvestorVaultPDA (projectPda programId : PublicKey) : result PublicKey :=
  pda_of [Buffer_from_string "investor_vault"; toBuffer projectPda] programId.

Definition getFounderVaultPDA (projectPda programId : PublicKey) : result PublicKey :=
  pda_of [Buffer_from_string "founder_vault"; toBuffer projectPda] programId.

Definition getLpTokenVaultPDA (projectPda programId : PublicKey) : result PublicKey :=
  pda_of [Buffer_from_string "lp_token_vault"; toBuffer projectPda] programId.

Definition getTreasuryVaultPDA (projectPda programId : PublicKey) : result PublicKey :=
  pda_of [Buffer_from_string "treasury_vault"; toBuffer projectPda] programId.

Definition getLpUsdcVaultPDA (projectPda programId : PublicKey) : result PublicKey :=
  pda_of [Buffer_from_string "lp_usdc_vault"; toBuffer projectPda] programId.

Definition getFounderVestingPDA (projectPda programId : PublicKey) : result PublicKey :=
  pda_of [Buffer_from_string "founder_vesting"; toBuffer projectPda] programId.

(** The entity kinds, one for each derivation above, and the textual
    prefix that the derivation of each kind puts first. *)
Inductive EntityKind : Type :=
| KProject | KEscrow | KMilestone | KInvestment | KVote | KPivotProposal
| KTgeEscrow | KTgeEscrowVault | KTokenVault | KScamReport | KAdminConfig
| KNftMint | KAuthority | KTokenomics | KTokenMint | KVaultAuthority
| KInvestorVault | KFounderVault | KLpTokenVault | KTreasuryVault
| KLpUsdcVault | KFounderVesting.

Definition prefix_of (k : EntityKind) : string :=
  match k with
  | KProject => SEEDS.PROJECT
  | KEscrow => SEEDS.ESCROW
  | KMilestone => SEEDS.MILESTONE
  | KInvestment => SEEDS.INVESTMENT
  | KVote => SEEDS.VOTE
  | KPivotProposal => SEEDS.PIVOT
  | KTgeEscrow => SEEDS.TGE_ESCROW
  | KTgeEscrowVault => SEEDS.TGE_ESCROW_VAULT
  | KTokenVault => "token_vault"
  | KScamReport => SEEDS.SCAM_REPORT
  | KAdminConfig => SEEDS.ADMIN_CONFIG
  | KNftMint => SEEDS.NFT_MINT
  | KAuthority => SEEDS.AUTHORITY
  | KTokenomics => "tokenomics"
  | KTokenMint => "token_mint"
  | KVaultAuthority => "vault_authority"
  | KInvestorVault => "investor_vault"
  | KFounderVault => "founder_vault"
  | KLpTokenVault => "lp_token_vault"
  | KTreasuryVault => "treasury_vault"
  | KLpUsdcVault => "lp_usdc_vault"
  | KFounderVesting => "founder_vesting"
  end.

(** The contract [derive(kind, seeds...) -> address] in the spec's words:
    the prefix of the kind, then the raw seeds.  Each function above is an
    instance of it (lemma [derivations_are_derive]). *)
Definition derive (k : EntityKind) (raw : list Buffer) (programId : PublicKey)
  : result PublicKey :=
  pda_of (Buffer_from_string (prefix_of k) :: raw) programId.

End Derivation.
End Pdas.

(* ================================================================= *)
(** ** instructions/index.ts *)
(* ================================================================= *)

(** An instruction as the method builder composes it: the method name, its
    arguments and its named accounts. *)
Record Instruction {W : Web3} : Type := {
  method : string;
  args : list (string * Z);
  accounts : list (string * PublicKey)
}.

(** The ledger writer: [.rpc()] submits an instruction to the on-chain
    program, which holds the state and answers with a signature or rejects
    with an error.  The program itself is not part of the SDK. *)
Class Ledger {W : Web3} : Type := {
  LedgerState : Type;
  rpc : Instruction -> LedgerState -> result string * LedgerState
}.

Module Instructions.

(** *** Deadline constants and helpers *)

Definition MIN_DEADLINE_DURATION_SECONDS_PROD : Z := 604800.
Definition MIN_DEADLINE_DURATION_SECONDS_DEV : Z := 60.
Definition MAX_DEADLINE_DURATION_SECONDS : Z := 31536000.

(** [Date_now] is the reading of the clock, [Date.now()], in
    milliseconds; [daysFromNow] a whole number of days. *)
Definition calculateDeadline (Date_now : Z) (daysFromNow : Z) (isDev : bool)
  : result Z :=
  let nowSeconds := Date_now / 1000 in
  let minDuration := if isDev then MIN_DEADLINE_DURATION_SECONDS_DEV
                     else MIN_DEADLINE_DURATION_SECONDS_PROD in
  let daysInSeconds := daysFromNow * 24 * 60 * 60 in
  let deadlineSeconds := nowSeconds + Z.max daysInSeconds minDuration in
  let maxDeadline := nowSeconds + MAX_DEADLINE_DURATION_SECONDS in
  BN_of_number (Z.min deadlineSeconds maxDeadline).

Definition minDeadline (Date_now : Z) (isDev : bool) : result Z :=
  let nowSeconds := Date_now / 1000 in
  let minDuration := if isDev then MIN_DEADLINE_DURATION_SECONDS_DEV
                     else MIN_DEADLINE_DURATION_SECONDS_PROD in
  BN_of_number (nowSeconds + minDuration + 1).

(** The object [{ valid, error? }]. *)
Record DeadlineCheck : Type := { valid : bool; error : option string }.

Definition validateDeadline (Date_now : Z) (deadline : Z) (isDev : bool)
  : result DeadlineCheck :=
  let nowSeconds := Date_now / 1000 in
  deadlineSeconds <- BN_toNumber deadline ;;
  let minDuration := if isDev then MIN_DEADLINE_DURATION_SECONDS_DEV
                     else MIN_DEADLINE_DURATION_SECONDS_PROD in
  let minDeadline := nowSeconds + minDuration in
  let maxDeadline := nowSeconds + MAX_DEADLINE_DURATION_SECONDS in
  if deadlineSeconds <? minDeadline then
    let minDays := if isDev then "60 seconds" else "7 days" in
    Ok {| valid := false;
          error := Some ("Deadline must be at least " ++ minDays ++ " from now")%string |}
  else if deadlineSeconds >? maxDeadline then
    Ok {| valid := false;
          error := Some "Deadline must be within 1 year from now" |}
  else Ok {| valid := true; error := None |}.

(** *** Milestone deadline instructions *)

Section Submission.
Context {W : Web3} {L : Ledger}.
Import Pdas.

(** [program.programId]. *)
Record Program : Type := { programId : PublicKey }.

Record DeadlineArgs : Type := {
  projectId : Z;
  milestoneIndex : Z;
  deadline : Z   (* [deadline], respectively [newDeadline] *)
}.

(** Both addresses are derived first; an error thrown there leaves the
    ledger untouched. *)
Definition setMilestoneDeadline (program : Program) (a : DeadlineArgs)
    (founder : PublicKey) (st : LedgerState) : result string * LedgerState :=
  match getProjectPDA (projectId a) (programId program) with
  | Throw e => (Throw e, st)
  | Ok projectPda =>
      match getMilestonePDA projectPda (milestoneIndex a) (programId program) with
      | Throw e => (Throw e, st)
      | Ok milestonePda =>
          rpc {| method := "setMilestoneDeadline";
                 args := [("milestoneIndex", milestoneIndex a);
                          ("deadline", deadline a)];
                 accounts := [("project", projectPda);
                              ("milestone", milestonePda);
                              ("founder", founder)] |} st
      end
  end.

Definition extendMilestoneDeadline (program : Program) (a : DeadlineArgs)
    (founder : PublicKey) (st : LedgerState) : result string * LedgerState :=
  match getProjectPDA (projectId a) (programId program) with
  | Throw e => (Throw e, st)
  | Ok projectPda =>
      match getMilestonePDA projectPda (milestoneIndex a) (programId program) with
      | Throw e => (Throw e, st)
      | Ok milestonePda =>
          rpc {| method := "extendMilestoneDeadline";
                 args := [("milestoneIndex", milestoneIndex a);
                          ("newDeadline", deadline a)];
                 accounts := [("project", projectPda);
                              ("milestone", milestonePda);
                              ("founder", founder)] |} st
      end
  end.

End Submission.
(** *** Token symbol *)

(** [bytes[i] = v] on an array, for an index within it. *)
Fixpoint array_set (bytes : list Z) (i : nat) (v : Z) : list Z :=
  match bytes, i with
  | [], _ => []
  | _ :: rest, O => v :: rest
  | b :: rest, S j => b :: array_set rest j v
  end.

(** The [for] loop of [symbolToBytes] from the index [i]:
    [bytes[i] = chars.charCodeAt(i)]. *)
Fixpoint symbol_fill (chars : string) (i : nat) (bytes : list Z) : list Z :=
  match chars with
  | EmptyString => bytes
  | String c rest =>
      symbol_fill rest (S i) (array_set bytes i (Z.of_nat (nat_of_ascii c)))
  end.

(** [symbolToBytes], on an ASCII symbol. *)
Definition symbolToBytes (symbol : string) : list Z :=
  let bytes := repeat 0 8 in
  let chars := String_slice (toUpperCase symbol) 0 (Some 8) in
  symbol_fill chars 0 bytes.

(** *** Refund after abandonment *)

(** An entry of [remainingAccounts]. *)
Record AccountMeta {W : Web3} : Type := {
  pubkey : PublicKey;
  isWritable : bool;
  isSigner : bool
}.

(** The ledger writer for a builder that carries [remainingAccounts]. *)
Class RemainingLedger {W : Web3} {L : Ledger} : Type := {
  rpc_remaining :
    Instruction -> list AccountMeta -> LedgerState -> result string * LedgerState
}.

Section Refund.
Context {W : Web3} {L : Ledger} {RL : RemainingLedger}.
Import Pdas.

Record ClaimRefundArgs : Type := {
  refund_projectId : Z;
  nftMint : PublicKey;
  investorNftAccount : PublicKey;
  investorUsdcAccount : PublicKey;
  escrowTokenAccount : PublicKey;
  milestoneCount : option Z
}.

(** The [for] loop of [claimRefund] from the index [i], with [n] rounds to
    go: the address of milestone [i] is derived and pushed. *)
Fixpoint refund_milestones (projectPda programId : PublicKey) (n : nat) (i : Z)
    (remainingAccounts : list AccountMeta) : result (list AccountMeta) :=
  match n with
  | O => Ok remainingAccounts
  | S n' =>
      milestonePda <- getMilestonePDA projectPda i programId ;;
      refund_milestones projectPda programId n' (i + 1)
        (remainingAccounts
         ++ [{| pubkey := milestonePda; isWritable := false; isSigner := false |}])
  end.

Definition claimRefund (program : Program) (a : ClaimRefundArgs)
    (investor : PublicKey) (st : LedgerState) : result string * LedgerState :=
  let nftMintPubkey := nftMint a in
  let count := match milestoneCount a with
               | Some c => c
               | None => 1
               end in
  match
    (projectPda <- getProjectPDA (refund_projectId a) (programId program) ;;
     investmentPda <- getInvestmentPDA projectPda nftMintPubkey (programId program) ;;
     remainingAccounts <-
       refund_milestones projectPda (programId program) (Z.to_nat count) 0 [] ;;
     Ok (projectPda, investmentPda, remainingAccounts))
  with
  | Throw e => (Throw e, st)
  | Ok (projectPda, investmentPda, remainingAccounts) =>
      rpc_remaining
        {| method := "claimRefund";
           args := [];
           accounts := [("project", projectPda);
                        ("investment", investmentPda);
                        ("nftMint", nftMintPubkey);
                        ("investorNftAccount", investorNftAccount a);
                        ("investor", investor);
                        ("investorTokenAccount", investorUsdcAccount a);
                        ("escrowTokenAccount", escrowTokenAccount a)] |}
        remainingAccounts st
  end.

End Refund.

(** *** Metaplex addresses of an investment NFT *)

Section Metaplex.
Context {W : Web3}.
Import Pdas.

(** [TOKEN_METADATA_PROGRAM_ID], the key of the Metaplex program. *)
Variable TOKEN_METADATA_PROGRAM_ID : PublicKey.

Definition getMetadataPDA (mint : PublicKey) : result PublicKey :=
  pda_of [Buffer_from_string "metadata";
          toBuffer TOKEN_METADATA_PROGRAM_ID;
          toBuffer mint] TOKEN_METADATA_PROGRAM_ID.

Definition getMasterEditionPDA (mint : PublicKey) : result PublicKey :=
  pda_of [Buffer_from_string "metadata";
          toBuffer TOKEN_METADATA_PROGRAM_ID;
          toBuffer mint;
          Buffer_from_string "edition"] TOKEN_METADATA_PROGRAM_ID.

End Metaplex.

End Instructions.

(* ================================================================= *)
(** ** accounts/index.ts *)
(* ================================================================= *)

(** The ledger reader: [program.account.<type>.fetch(address)] answers
    with the decoded account or rejects with an error. *)
Class Reader {W : Web3} : Type := {
  AccountData : Type;
  fetch : string -> PublicKey -> result AccountData
}.

Module Accounts.
Section Fetchers.
Context {W : Web3} {R : Reader}.
Import Pdas Instructions.

(** The [try ... catch] of the fetchers: an error whose message includes
    'Account does not exist' gives [null], any other error is thrown
    again. *)
Definition null_when_absent {A : Type} (attempt : result A) : result (option A) :=
  match attempt with
  | Ok account => Ok (Some account)
  | Throw error =>
      if String_includes "Account does not exist" (error_message error)
      then Ok None
      else Throw error
  end.

Definition fetchProject (program : Program) (projectId : Z)
  : result (option AccountData) :=
  null_when_absent
    (projectPda <- getProjectPDA projectId (programId program) ;;
     fetch "project" projectPda).

Definition fetchProjectByPda (program : Program) (projectPda : PublicKey)
  : result (option AccountData) :=
  null_when_absent (fetch "project" projectPda).

Definition fetchMilestone (program : Program) (projectId milestoneIndex : Z)
  : result (option AccountData) :=
  null_when_absent
    (projectPda <- getProjectPDA projectId (programId program) ;;
     milestonePda <- getMilestonePDA projectPda milestoneIndex (programId program) ;;
     fetch "milestone" milestonePda).

Definition fetchInvestment (program : Program) (projectId : Z) (nftMint : PublicKey)
  : result (option AccountData) :=
  null_when_absent
    (projectPda <- getProjectPDA projectId (programId program) ;;
     investmentPda <- getInvestmentPDA projectPda nftMint (programId program) ;;
     fetch "investment" investmentPda).

Definition fetchVote (program : Program) (projectId milestoneIndex : Z)
    (voterKey : PublicKey) (votingRound : Z) : result (option AccountData) :=
  null_when_absent
    (projectPda <- getProjectPDA projectId (programId program) ;;
     milestonePda <- getMilestonePDA projectPda milestoneIndex (programId program) ;;
     votePda <- getVotePDA milestonePda voterKey votingRound (programId program) ;;
     fetch "vote" votePda).

Definition fetchTgeEscrow (program : Program) (projectId : Z)
  : result (option AccountData) :=
  null_when_absent
    (projectPda <- getProjectPDA projectId (programId program) ;;
     tgeEscrowPda <- getTgeEscrowPDA projectPda (programId program) ;;
     fetch "tgeEscrow" tgeEscrowPda).

(** No [try] here: every error is thrown to the caller. *)
Definition fetchAdminConfig (program : Program) : result AccountData :=
  adminConfigPda <- getAdminConfigPDA (programId program) ;;
  fetch "adminConfig" adminConfigPda.

(** [try { await fetch(pda); return true } catch { return false }]. *)
Definition accountExists (program : Program) (accountType : string)
    (pda : PublicKey) : bool :=
  match fetch accountType pda with
  | Ok _ => true
  | Throw _ => false
  end.

End Fetchers.
End Accounts.

(* ================================================================= *)
(** ** The ledger program: deadline extensions *)
(* ================================================================= *)

(** The program on the ledger is not part of the SDK: of the extension of
    a milestone deadline src/ holds the caller, [extendMilestoneDeadline],
    and not the instruction that decides.  This module is that
    instruction as the spec describes it. *)

Module LedgerProgram.

(** Modelled from the spec: the number of extensions that the ledger
    program grants a milestone, missing from src/ ("at most three times
    per milestone", "extensionCount <= 3"). *)
Definition MAX_DEADLINE_EXTENSIONS : Z := 3.

(** Modelled from the spec: the fields of a milestone record that an
    extension reads and writes, missing from src/ ("deadline, extension
    count"). *)
Record MilestoneRecord : Type := {
  milestoneDeadline : Z;
  extensionCount : Z
}.

(** Modelled from the spec: the conditions on which the ledger program
    refuses an extension, missing from src/: the extensions are exhausted
    ("a 4th extension attempt fails with the deadline-extension-exhausted
    condition"), the deadline has passed ("only while still in the
    future"), the new deadline is not later ("forward-only").
    [OutsideTheModel] stands for every refusal that these sentences do not
    describe. *)
Inductive Refusal : Type :=
| DeadlineExtensionExhausted
| DeadlinePassed
| DeadlineNotForward
| OutsideTheModel.

(** Modelled from the spec: the decision of the ledger program on an
    extension, missing from src/: "an existing deadline may be extended
    forward-only, and only while still in the future, at most three times
    per milestone"; "a 4th extension attempt fails with the
    deadline-extension-exhausted condition".  [now] is the clock of the
    ledger. *)
Definition extend_deadline (now : Z) (m : MilestoneRecord) (newDeadline : Z)
  : MilestoneRecord + Refusal :=
  if MAX_DEADLINE_EXTENSIONS <=? extensionCount m then inr DeadlineExtensionExhausted
  else if milestoneDeadline m <=? now then inr DeadlinePassed
  else if newDeadline <=? milestoneDeadline m then inr DeadlineNotForward
  else inl {| milestoneDeadline := newDeadline;
              extensionCount := extensionCount m + 1 |}.

Section Program.
Context {W : Web3}.

(** [a.equals(b)] on account keys. *)
Variable key_eqb : PublicKey -> PublicKey -> bool.

(** The error with which a refusal of the program reaches the client. *)
Variable refusal : Refusal -> exn.

(** Modelled from the spec: the state of the ledger that extensions
    depend on, missing from src/: its clock and the milestone records, each
    under its address. *)
Record State : Type := {
  clock : Z;
  milestones : list (PublicKey * MilestoneRecord)
}.

(** Modelled from the spec: the record that the ledger holds under an
    address, and its replacement by an updated record; the store of the
    ledger is missing from src/. *)
Fixpoint find_milestone (address : PublicKey)
    (records : list (PublicKey * MilestoneRecord)) : option MilestoneRecord :=
  match records with
  | [] => None
  | (key, m) :: rest =>
      if key_eqb address key then Some m else find_milestone address rest
  end.

Fixpoint store_milestone (address : PublicKey) (m' : MilestoneRecord)
    (records : list (PublicKey * MilestoneRecord))
  : list (PublicKey * MilestoneRecord) :=
  match records with
  | [] => []
  | (key, m) :: rest =>
      if key_eqb address key then (key, m') :: rest
      else (key, m) :: store_milestone address m' rest
  end.

(** The entry of that name among the arguments or the accounts of an
    instruction. *)
Fixpoint named {A : Type} (name : string) (entries : list (string * A)) : option A :=
  match entries with
  | [] => None
  | (n, v) :: rest => if String.eqb name n then Some v else named name rest
  end.

(** Modelled from the spec: the ledger program on an instruction, missing
    from src/.  An [extendMilestoneDeadline] instruction is decided by
    [extend_deadline] on the record of its milestone account, and a
    refusal changes nothing; any other instruction is outside the
    model. *)
Definition execute (instruction : Instruction) (st : State)
  : result string * State :=
  if String.eqb (method instruction) "extendMilestoneDeadline" then
    match named "milestone" (accounts instruction),
          named "newDeadline" (args instruction) with
    | Some address, Some newDeadline =>
        match find_milestone address (milestones st) with
        | Some m =>
            match extend_deadline (clock st) m newDeadline with
            | inl m' =>
                (Ok "signature",
                 {| clock := clock st;
                    milestones := store_milestone address m' (milestones st) |})
            | inr r => (Throw (refusal r), st)
            end
        | None => (Throw (refusal OutsideTheModel), st)
        end
    | _, _ => (Throw (refusal OutsideTheModel), st)
    end
  else (Throw (refusal OutsideTheModel), st).

(** Modelled from the spec: the ledger that runs this program, missing
    from src/. *)
Definition ledger : Ledger := {| LedgerState := State; rpc := execute |}.

(** What can happen to the ledger: the client extends a deadline, or time
    passes. *)
Inductive step (program : @Instructions.Program W) : State -> State -> Prop :=
| step_extend (a : Instructions.DeadlineArgs) (founder : PublicKey) (st : State) :
    step program st
      (snd (@Instructions.extendMilestoneDeadline W ledger program a founder st))
| step_clock (st : State) (later : Z) :
    clock st <= later ->
    step program st {| clock := later; milestones := milestones st |}.

Inductive history (program : @Instructions.Program W) : State -> State -> Prop :=
| history_nil (st : State) : history program st st
| history_cons (st1 st2 st3 : State) :
    step program st1 st2 -> history program st2 st3 -> history program st1 st3.

(** No milestone of the ledger has more than three extensions. *)
Definition within_limit (st : State) : Prop :=
  Forall (fun entry => extensionCount (snd entry) <= MAX_DEADLINE_EXTENSIONS)
         (milestones st).

End Program.
End LedgerProgram.

(* ================================================================= *)
(** ** Vocabulary of the statements *)
(* ================================================================= *)

(** The example of the README and of the spec: tiers 100, 500, 1000. *)
Definition example_tiers : list Constants.TierAmount :=
  [ {| Constants.amount := 100 |};
    {| Constants.amount := 500 |};
    {| Constants.amount := 1000 |} ].

(** The sum of a list of percentages, as mathematics writes it. *)
Definition sum_of (percentages : list Z) : Z := fold_right Z.add 0 percentages.

(** The minimum duration of a mode, and the message of a deadline that
    comes before it. *)
Definition min_duration (isDev : bool) : Z :=
  if isDev then Instructions.MIN_DEADLINE_DURATION_SECONDS_DEV
  else Instructions.MIN_DEADLINE_DURATION_SECONDS_PROD.

Definition too_soon_message (isDev : bool) : string :=
  if isDev then "Deadline must be at least 60 seconds from now"
  else "Deadline must be at least 7 days from now".


(** The hash behind [findProgramAddressSync] is collision-free when two
    equal addresses under one program can only come from seed lists with
    the same bytes (the seeds are hashed concatenated). *)
Definition collision_free (W : Web3) : Prop :=
  forall seeds1 seeds2 programId a1 b1 a2 b2,
    findProgramAddressSync seeds1 programId = Ok (a1, b1) ->
    findProgramAddressSync seeds2 programId = Ok (a2, b2) ->
    a1 = a2 -> List.concat seeds1 = List.concat seeds2.

(** A transparent stand-in for the library, in which an address shows the
    bytes it was derived from. *)
#[local] Instance transparent_web3 : Web3 := {|
  PublicKey := Buffer;
  toBuffer := fun key => key;
  findProgramAddressSync := fun seeds programId =>
    Ok (List.concat seeds ++ programId, 255)
|}.

Definition sample_program : @PublicKey transparent_web3 :=
  Buffer_from_string "RaiseProgram".

Definition sample_project : @PublicKey transparent_web3 :=
  Buffer_from_string "SomeProjectAddress".

Definition sample_mint : @PublicKey transparent_web3 :=
  Buffer_from_string "SomeMintAddress".

(** A ledger that accepts every instruction and counts them. *)
#[local] Instance accepting_ledger : @Ledger transparent_web3 := {|
  LedgerState := nat;
  rpc := fun _ submitted => (Ok "signature", S submitted)
|}.

(** The same founder extends the same milestone several times in a row,
    each time to the next deadline of the list. *)
Fixpoint extend_repeatedly {W : Web3} {L : Ledger}
    (program : Instructions.Program) (pid idx : Z)
    (newDeadlines : list Z) (founder : PublicKey) (st : LedgerState)
  : list (result string) * LedgerState :=
  match newDeadlines with
  | [] => ([], st)
  | d :: ds =>
      let '(r, st1) :=
        Instructions.extendMilestoneDeadline program
          {| Instructions.projectId := pid;
             Instructions.milestoneIndex := idx;
             Instructions.deadline := d |}
          founder st in
      let '(rs, st2) := extend_repeatedly program pid idx ds founder st1 in
      (r :: rs, st2)
  end.

(** [mentions pat s]: the text [pat] occurs in [s]. *)
Definition mentions (pat s : string) : bool :=
  match String.index 0 pat s with
  | Some _ => true
  | None => false
  end.

(** A name or a message that speaks of deadlines or of extending them, in
    whatever case the first letter is. *)
Definition about_deadline_extension (s : string) : bool :=
  mentions "eadline" s || mentions "xten" s.

(** [a.equals(b)] on the keys of the transparent stand-in. *)
Fixpoint same_bytes (a b : Buffer) : bool :=
  match a, b with
  | [], [] => true
  | x :: a', y :: b' => Byte.eqb x y && same_bytes a' b'
  | _, _ => false
  end.

(** How the sample ledger reports a refusal. *)
Definition sample_refusal (r : LedgerProgram.Refusal) : exn :=
  match r with
  | LedgerProgram.DeadlineExtensionExhausted =>
      AnchorError 0 "deadline extensions exhausted" "refused"
  | LedgerProgram.DeadlinePassed => AnchorError 1 "deadline has passed" "refused"
  | LedgerProgram.DeadlineNotForward =>
      AnchorError 2 "deadline must move forward" "refused"
  | LedgerProgram.OutsideTheModel => LibraryError "outside the model"
  end.

(** A ledger at second 1700000000 that holds milestone 0 of project 1,
    with a deadline and no extension so far. *)
Definition sample_ledger : @LedgerProgram.State transparent_web3 := {|
  LedgerProgram.clock := 1700000000;
  LedgerProgram.milestones :=
    match
      (projectPda <- Pdas.getProjectPDA 1 sample_program ;;
       Pdas.getMilestonePDA projectPda 0 sample_program)
    with
    | Ok milestonePda =>
        [(milestonePda, {| LedgerProgram.milestoneDeadline := 1800000000;
                           LedgerProgram.extensionCount := 0 |})]
    | Throw _ => []
    end
|}.

(** One extension of that milestone through the client: the ledger
    afterwards. *)
Definition extended (newDeadline : Z)
    (st : @LedgerProgram.State transparent_web3)
  : @LedgerProgram.State transparent_web3 :=
  snd (@Instructions.extendMilestoneDeadline transparent_web3
         (LedgerProgram.ledger same_bytes sample_refusal)
         {| Instructions.programId := sample_program |}
         {| Instructions.projectId := 1;
            Instructions.milestoneIndex := 0;
            Instructions.deadline := newDeadline |}
         sample_mint st).

(** Four extensions of that milestone in a row, through the client. *)
Definition four_extensions
  : list (result string) * @LedgerProgram.State transparent_web3 :=
  @extend_repeatedly transparent_web3
    (LedgerProgram.ledger same_bytes sample_refusal)
    {| Instructions.programId := sample_program |} 1 0
    [1800000001; 1800000002; 1800000003; 1800000004] sample_mint sample_ledger.



(** The legacy tiers in ascending order, their minimums as a tier list,
    and the place of a tier in that order. *)
Definition legacy_order : list Constants.InvestmentTier :=
  [Constants.Bronze; Constants.Silver; Constants.Gold;
   Constants.Platinum; Constants.Diamond].

Definition legacy_tiers : list Constants.TierAmount :=
  map (fun t => {| Constants.amount := Constants.TIER_MINIMUMS t |}) legacy_order.

Definition tier_rank (t : Constants.InvestmentTier) : nat :=
  match t with
  | Constants.Bronze => 0
  | Constants.Silver => 1
  | Constants.Gold => 2
  | Constants.Platinum => 3
  | Constants.Diamond => 4
  end.

(** Whole USDC amounts: [toAmount] is exact and [fromAmount] undoes it. *)
Definition usdc_whole_exact (u : nat) : bool :=
  match Constants.USDC.toAmount (number_of_Z (Z.of_nat u)) with
  | Ok lamports =>
      (lamports =? Z.of_nat u * 1000000)
      && PrimFloat.Leibniz.eqb (Constants.USDC.fromAmount lamports)
                               (number_of_Z (Z.of_nat u))
  | Throw _ => false
  end.

(** The [message] that a thrown [Error] carries; a value that is no
    [Error] has none. *)
Definition carried_message (t : Errors.Thrown) : option string :=
  match t with
  | Errors.ThrownRaiseError e => Some (Errors.message e)
  | Errors.ThrownError e => Some (error_message e)
  | Errors.ThrownValue _ => None
  end.

(** On a whole percentage [p] from 0 to 100, [percentage * 100] is the
    whole number [100 p]. *)
Definition whole_percentage_exact (p : nat) : bool :=
  match BigInt (Math_floor (number_of_Z (Z.of_nat p) * 100)%float) with
  | Ok k => k =? 100 * Z.of_nat p
  | Throw _ => false
  end.

(** From basis points to a percentage and back: the result is the number
    of basis points or one less. *)
Definition bps_back_within_one (k : nat) : bool :=
  match BigInt (Utils.percentToBps (Utils.bpsToPercent (number_of_Z (Z.of_nat k)))) with
  | Ok r => (Z.of_nat k - 1 <=? r) && (r <=? Z.of_nat k)
  | Throw _ => false
  end.

(** The character codes of a string, as [charCodeAt] reads them. *)
Definition char_codes (s : string) : list Z :=
  map (fun c => Z.of_nat (nat_of_ascii c)) (list_ascii_of_string s).

(** A string of ASCII characters only. *)
Definition is_ascii (s : string) : bool :=
  forallb (fun code => code <? 128) (char_codes s).

(** One kind's prefix begins with the other's. *)
Definition prefixes_nest (k1 k2 : Pdas.EntityKind) : bool :=
  String.prefix (Pdas.prefix_of k1) (Pdas.prefix_of k2)
  || String.prefix (Pdas.prefix_of k2) (Pdas.prefix_of k1).

Definition other_project : @PublicKey transparent_web3 :=
  Buffer_from_string "NextProjectAddress".

(** A ledger that accepts a refund claim and counts the accounts passed
    along with it. *)
#[local] Instance counting_ledger
  : @Instructions.RemainingLedger transparent_web3 accepting_ledger :=
  @Instructions.Build_RemainingLedger transparent_web3 accepting_ledger
    (fun _ remainingAccounts (seen : nat) =>
       (Ok "signature", (seen + List.length remainingAccounts)%nat)).

Definition sample_refund (count : option Z)
  : @Instructions.ClaimRefundArgs transparent_web3 := {|
  Instructions.refund_projectId := 7;
  Instructions.nftMint := sample_mint;
  Instructions.investorNftAccount := sample_mint;
  Instructions.investorUsdcAccount := sample_mint;
  Instructions.escrowTokenAccount := sample_mint;
  Instructions.milestoneCount := count
|}.

(** A refund claim for project 7, on the counting ledger with [seen]
    accounts counted so far: the count after the claim. *)
Definition accounts_after_refund (count : option Z) (seen : nat) : nat :=
  snd (@Instructions.claimRefund transparent_web3 accepting_ledger counting_ledger
         {| Instructions.programId := sample_program |}
         (sample_refund count) sample_mint seen).

(* ================================================================= *)
(** * Verification *)
(* ================================================================= *)

(** ** Tier matching *)

Section TierMatching.
Import Constants.

Lemma findTierIndex_from_Some tiers amt n i :
  findTierIndex_from tiers amt n = Some i ->
  (i < n)%nat /\
  (exists t, nth_error tiers i = Some t /\ amount t <= amt) /\
  (forall j t, (i < j < n)%nat -> nth_error tiers j = Some t -> amt < amount t).
Proof.
  induction n as [|n IH]; simpl; [discriminate|].
  destruct (nth_error tiers n) as [t|] eqn:Hn; [|discriminate].
  destruct (amt >=? amount t) eqn:Hge.
  - intros [= <-]. repeat split.
    + lia.
    + exists t. split; [assumption|]. apply Z.geb_le in Hge. lia.
    + intros j t' Hj. lia.
  - intros H. destruct (IH H) as (Hlt & Hex & Hab). repeat split.
    + lia.
    + assumption.
    + intros j t' Hj Hnth.
      destruct (Nat.eq_dec j n) as [->|Hne].
      * rewrite Hn in Hnth. injection Hnth as <-.
        rewrite Z.geb_leb in Hge. apply Z.leb_gt in Hge. assumption.
      * apply (Hab j t'); [lia|assumption].
Qed.

Lemma findTierIndex_from_None tiers amt n :
  (n <= List.length tiers)%nat ->
  findTierIndex_from tiers amt n = None ->
  forall j t, (j < n)%nat -> nth_error tiers j = Some t -> amt < amount t.
Proof.
  induction n as [|n IH]; simpl; intros Hlen Hnone j t Hj Hnth; [lia|].
  destruct (nth_error tiers n) as [t'|] eqn:Hn.
  - destruct (amt >=? amount t') eqn:Hge; [discriminate|].
    destruct (Nat.eq_dec j n) as [->|Hne].
    + rewrite Hn in Hnth. injection Hnth as <-.
      rewrite Z.geb_leb in Hge. apply Z.leb_gt in Hge. assumption.
    + apply (IH ltac:(lia) Hnone j t); [lia|assumption].
  - apply nth_error_None in Hn. lia.
Qed.

(** In a list sorted ascending the first amount is the smallest. *)
Lemma sorted_head_least (tiers : list TierAmount) t0 t :
  Sorted Z.le (map amount tiers) ->
  hd_error tiers = Some t0 -> In t tiers -> amount t0 <= amount t.
Proof.
  intros Hs Hhd Hin. destruct tiers as [|a l]; [discriminate|].
  injection Hhd as ->. destruct Hin as [->|Hin]; [lia|].
  apply Sorted_StronglySorted in Hs; [|intros x y z; apply Z.le_trans].
  simpl in Hs. apply StronglySorted_inv in Hs as [_ Hall].
  rewrite Forall_forall in Hall. apply Hall. apply in_map. assumption.
Qed.

(** C1. On a tier list sorted ascending by amount, [findTierIndex] returns
    the largest index whose amount is at most the investment (the first
    qualifying index met when scanning from the highest tier downward);
    it returns [null] exactly when the investment is below every tier's
    amount, which on a non-empty sorted list means below the first, the
    smallest, amount. *)
Theorem findTierIndex_highest_qualifying (tiers : list TierAmount) (amt : Z) :
  Sorted Z.le (map amount tiers) ->
  match findTierIndex tiers amt with
  | Some i =>
      (exists t, nth_error tiers i = Some t /\ amt >= amount t) /\
      (forall j t, nth_error tiers j = Some t -> amt >= amount t -> (j <= i)%nat)
  | None => forall t, In t tiers -> amt < amount t
  end /\
  (forall t0, hd_error tiers = Some t0 ->
     (findTierIndex tiers amt = None <-> amt < amount t0)).
Proof.
  intros Hsorted.
  assert (Hnone : findTierIndex tiers amt = None ->
                  forall t, In t tiers -> amt < amount t).
  { intros H t Hin. apply In_nth_error in Hin as [j Hj].
    apply (findTierIndex_from_None tiers amt (List.length tiers)
             (Nat.le_refl _) H j t); [|assumption].
    apply nth_error_Some. congruence. }
  split.
  - destruct (findTierIndex tiers amt) as [i|] eqn:Hfind.
    + apply findTierIndex_from_Some in Hfind as (Hlt & (t & Ht & Hle) & Hab).
      split.
      * exists t. split; [assumption|lia].
      * intros j t' Hj Hge.
        destruct (Nat.le_gt_cases j i) as [|Hgt]; [assumption|exfalso].
        assert (j < List.length tiers)%nat
          by (apply nth_error_Some; congruence).
        specialize (Hab j t' ltac:(lia) Hj). lia.
    + apply Hnone. reflexivity.
  - intros t0 Hhd. split.
    + intros H. apply (Hnone H). destruct tiers; [discriminate|].
      injection Hhd as ->. left. reflexivity.
    + intros Hlt. destruct (findTierIndex tiers amt) as [i|] eqn:Hfind;
        [exfalso|reflexivity].
      apply findTierIndex_from_Some in Hfind as (_ & (t & Ht & Hle) & _).
      apply nth_error_In in Ht.
      pose proof (sorted_head_least tiers t0 t Hsorted Hhd Ht). lia.
Qed.

Example findTierIndex_750 : findTierIndex example_tiers 750 = Some 1%nat.
Proof. reflexivity. Qed.

Example findTierIndex_50 : findTierIndex example_tiers 50 = None.
Proof. reflexivity. Qed.

Example findTierIndex_1000 : findTierIndex example_tiers 1000 = Some 2%nat.
Proof. reflexivity. Qed.

Lemma findTierIndex_highest_qualifying_witness :
  Sorted Z.le (map amount example_tiers) /\
  (match findTierIndex example_tiers 750 with
   | Some i =>
       (exists t, nth_error example_tiers i = Some t /\ 750 >= amount t) /\
       (forall j t, nth_error example_tiers j = Some t -> 750 >= amount t ->
                    (j <= i)%nat)
   | None => forall t, In t example_tiers -> 750 < amount t
   end /\
   (forall t0, hd_error example_tiers = Some t0 ->
      (findTierIndex example_tiers 750 = None <-> 750 < amount t0))).
Proof.
  assert (Hs : Sorted Z.le (map amount example_tiers)).
  { simpl. repeat constructor; lia. }
  split; [exact Hs|].
  exact (findTierIndex_highest_qualifying example_tiers 750 Hs).
Defined.

End TierMatching.

(** ** Milestone percentages *)

Section MilestonePercentages.
Import Utils.

Lemma reduce_add_from (percentages : list Z) (acc : Z) :
  fold_left (fun a p => a + p) percentages acc = acc + sum_of percentages.
Proof.
  revert acc. induction percentages as [|p ps IH]; intros acc; simpl.
  - lia.
  - rewrite IH. unfold sum_of. lia.
Qed.

(** C8. [validateMilestonePercentages] returns true exactly when the
    percentages sum to 100; [30,40,30] passes and [30,40,20] fails. *)
Theorem validateMilestonePercentages_sum_100 :
  (forall percentages,
     validateMilestonePercentages percentages = true <-> sum_of percentages = 100)
  /\ validateMilestonePercentages [30; 40; 30] = true
  /\ validateMilestonePercentages [30; 40; 20] = false.
Proof.
  split; [|split; reflexivity].
  intros percentages. unfold validateMilestonePercentages.
  rewrite reduce_add_from, Z.eqb_eq. lia.
Qed.

End MilestonePercentages.

(** ** Error taxonomy *)

Section ErrorTaxonomy.
Import Errors.

Lemma error_codes_in_range_b :
  forallb (fun e => in_range (entry_category e) (entry_code e)) ERROR_CODES = true.
Proof. reflexivity. Qed.

Lemma ranges_disjoint (c1 c2 : Category) (code : Z) :
  in_range c1 code = true -> in_range c2 code = true -> c1 = c2.
Proof.
  unfold in_range. rewrite !andb_true_iff, !Z.leb_le.
  destruct c1, c2; simpl; intros [? ?] [? ?]; try reflexivity; lia.
Qed.

(** C9. Every named error code lies in the range reserved for its
    category (6000-6099 state transition, 6100-6199 authorization, 6200-6299
    investment, 6300-6399 milestone, 6400-6499 token generation, 6500-6599
    pivot, 6800-6899 refund, 6900-6999 scam report); two distinct
    categories share no number; so each code belongs to exactly one
    category, its own. *)
Theorem error_codes_within_reserved_ranges :
  map category_range all_categories =
    [(6000, 6099); (6100, 6199); (6200, 6299); (6300, 6399);
     (6400, 6499); (6500, 6599); (6800, 6899); (6900, 6999)]
  /\ (forall e, In e ERROR_CODES ->
        fst (category_range (entry_category e)) <= entry_code e
          <= snd (category_range (entry_category e)))
  /\ (forall c1 c2, c1 <> c2 ->
        snd (category_range c1) < fst (category_range c2) \/
        snd (category_range c2) < fst (category_range c1))
  /\ (forall e c, In e ERROR_CODES ->
        (in_range c (entry_code e) = true <-> c = entry_category e)).
Proof.
  assert (Hin : forall e, In e ERROR_CODES ->
                  in_range (entry_category e) (entry_code e) = true).
  { apply forallb_forall. exact error_codes_in_range_b. }
  split; [reflexivity|]. split; [|split].
  - intros e He. specialize (Hin e He). unfold in_range in Hin.
    rewrite andb_true_iff, !Z.leb_le in Hin. exact Hin.
  - intros c1 c2 Hne. destruct c1, c2; simpl; try lia; contradiction Hne; reflexivity.
  - intros e c He. split.
    + intros Hc. exact (ranges_disjoint _ _ _ Hc (Hin e He)).
    + intros ->. exact (Hin e He).
Qed.

End ErrorTaxonomy.

(** ** Deadlines *)

Section Deadlines.
Import Instructions.

Lemma min_duration_values :
  min_duration true = 60 /\ min_duration false = 604800 /\
  MAX_DEADLINE_DURATION_SECONDS = 31536000.
Proof. repeat split. Qed.

Lemma BN_toNumber_ok (b : Z) : Z.abs b < 2 ^ 53 -> BN_toNumber b = Ok b.
Proof.
  intros H. unfold BN_toNumber. apply Z.ltb_lt in H. rewrite H. reflexivity.
Qed.

Lemma BN_of_number_ok (n : Z) : Z.abs n < 2 ^ 53 -> BN_of_number n = Ok n.
Proof.
  intros H. unfold BN_of_number. apply Z.ltb_lt in H. rewrite H. reflexivity.
Qed.

(** What [validateDeadline] answers on a deadline that [toNumber] converts:
    one of three objects, by the position of the deadline. *)
Lemma validateDeadline_cases (Date_now deadline : Z) (isDev : bool) :
  Z.abs deadline < 2 ^ 53 ->
  validateDeadline Date_now deadline isDev =
    Ok (if deadline <? Date_now / 1000 + min_duration isDev
        then {| valid := false; error := Some (too_soon_message isDev) |}
        else if deadline >? Date_now / 1000 + MAX_DEADLINE_DURATION_SECONDS
        then {| valid := false;
                error := Some "Deadline must be within 1 year from now" |}
        else {| valid := true; error := None |}).
Proof.
  intros H. unfold validateDeadline. rewrite (BN_toNumber_ok _ H). simpl.
  unfold min_duration, too_soon_message.
  destruct isDev;
    destruct (deadline <? _); try reflexivity;
    destruct (deadline >? _); reflexivity.
Qed.

Lemma BN_toNumber_too_wide (b : Z) :
  2 ^ 53 <= Z.abs b ->
  BN_toNumber b = Throw (AssertionError "Number can only safely store up to 53 bits").
Proof.
  intros H. unfold BN_toNumber. apply Z.ltb_ge in H. rewrite H. reflexivity.
Qed.

(** C6, what fails.  A deadline of 2^53 seconds lies more than one year
    after the clock reading, so it is outside the bounds; yet
    [validateDeadline] does not report it invalid: [toNumber] does not
    convert it, and the call throws instead of answering. *)
Example validateDeadline_beyond_safe_integers :
  1700000000000 / 1000 + 31536000 < 2 ^ 53 /\
  validateDeadline 1700000000000 (2 ^ 53) false
    = Throw (AssertionError "Number can only safely store up to 53 bits") /\
  ~ (exists r,
       validateDeadline 1700000000000 (2 ^ 53) false = Ok r /\ valid r = false).
Proof.
  split; [vm_compute; reflexivity|]. split; [reflexivity|].
  intros [r [H _]]. discriminate H.
Qed.

(** C6, amended.  For every deadline that [toNumber] converts (below 2^53
    in magnitude, as every timestamp is) and every mode,
    [validateDeadline(deadline, isDev)] reports valid exactly when the
    deadline lies between the current time plus the minimum duration
    (604800 s in production, 60 s in development) and the current time plus
    one year (31536000 s); a deadline before these bounds is reported
    invalid with the "at least" message of the mode, one after them with
    the "within 1 year" message.  For a deadline of 2^53 or more in
    magnitude nothing is reported: the call throws the assertion error of
    [toNumber]. *)
Theorem validateDeadline_bounds (Date_now deadline : Z) (isDev : bool) :
  let now := Date_now / 1000 in
  let lo := now + (if isDev then 60 else 604800) in
  let hi := now + 31536000 in
  (Z.abs deadline < 2 ^ 53 ->
   exists r,
     validateDeadline Date_now deadline isDev = Ok r /\
     (valid r = true <-> lo <= deadline <= hi) /\
     (valid r = true -> error r = None) /\
     (deadline < lo ->
        valid r = false /\ error r = Some (too_soon_message isDev)) /\
     (hi < deadline ->
        valid r = false /\
        error r = Some "Deadline must be within 1 year from now"))
  /\
  (2 ^ 53 <= Z.abs deadline ->
   validateDeadline Date_now deadline isDev
     = Throw (AssertionError "Number can only safely store up to 53 bits")).
Proof.
  intros now lo hi. split.
  - intros H. eexists. split; [apply validateDeadline_cases, H|].
    fold now. replace (now + min_duration isDev) with lo
      by (unfold lo, min_duration; destruct isDev; reflexivity).
    change (now + MAX_DEADLINE_DURATION_SECONDS) with hi.
    assert (Hlohi : lo < hi) by (unfold lo, hi; destruct isDev; lia).
    destruct (deadline <? lo) eqn:Hlo;
      [apply Z.ltb_lt in Hlo|apply Z.ltb_ge in Hlo].
    + simpl. repeat split; intros; try discriminate; try lia.
    + destruct (deadline >? hi) eqn:Hhi; rewrite Z.gtb_ltb in Hhi;
        [apply Z.ltb_lt in Hhi|apply Z.ltb_ge in Hhi]; simpl;
        repeat split; intros; try discriminate; try lia.
  - intros H. unfold validateDeadline.
    rewrite (BN_toNumber_too_wide _ H). reflexivity.
Qed.

Lemma validateDeadline_bounds_witness :
  Z.abs 1700700000 < 2 ^ 53 /\
  exists r,
    validateDeadline 1700000000000 1700700000 false = Ok r /\
    (valid r = true <-> 1700000000 + 604800 <= 1700700000 <= 1700000000 + 31536000) /\
    (valid r = true -> error r = None) /\
    (1700700000 < 1700000000 + 604800 ->
       valid r = false /\ error r = Some (too_soon_message false)) /\
    (1700000000 + 31536000 < 1700700000 ->
       valid r = false /\
       error r = Some "Deadline must be within 1 year from now").
Proof.
  assert (H : Z.abs 1700700000 < 2 ^ 53) by (vm_compute; reflexivity).
  split; [exact H|].
  exact (proj1 (validateDeadline_bounds 1700000000000 1700700000 false) H).
Defined.

(** C10. Whatever the number of days (so for every non-negative one) and
    the mode, [calculateDeadline] returns a deadline clamped into
    [now + minimum duration, now + 31536000], and [validateDeadline] with
    the same clock reading and mode reports it valid.  The clock reading is
    a time value of ECMAScript, at most 8.64e15 ms in magnitude. *)
Theorem calculateDeadline_passes_validateDeadline
    (Date_now daysFromNow : Z) (isDev : bool) :
  Z.abs Date_now <= 8640000000000000 ->
  exists d,
    calculateDeadline Date_now daysFromNow isDev = Ok d /\
    Date_now / 1000 + min_duration isDev <= d
      <= Date_now / 1000 + MAX_DEADLINE_DURATION_SECONDS /\
    validateDeadline Date_now d isDev = Ok {| valid := true; error := None |}.
Proof.
  intros Hclock.
  set (now := Date_now / 1000).
  assert (Hnow : -8640000000000 <= now <= 8640000000000).
  { unfold now. split.
    - apply Z.div_le_lower_bound; lia.
    - apply Z.div_le_upper_bound; lia. }
  set (d := Z.min (now + Z.max (daysFromNow * 24 * 60 * 60) (min_duration isDev))
                  (now + MAX_DEADLINE_DURATION_SECONDS)).
  assert (Hmin : 60 <= min_duration isDev <= 604800)
    by (destruct isDev; unfold min_duration,
          MIN_DEADLINE_DURATION_SECONDS_DEV, MIN_DEADLINE_DURATION_SECONDS_PROD; lia).
  assert (Hd : now + min_duration isDev <= d <= now + MAX_DEADLINE_DURATION_SECONDS).
  { unfold d, MAX_DEADLINE_DURATION_SECONDS in *. lia. }
  assert (Hsafe : Z.abs d < 2 ^ 53).
  { unfold MAX_DEADLINE_DURATION_SECONDS in Hd.
    change (2 ^ 53) with 9007199254740992. lia. }
  exists d. split; [|split].
  - unfold calculateDeadline. fold now. fold (min_duration isDev). fold d.
    apply BN_of_number_ok, Hsafe.
  - exact Hd.
  - rewrite (validateDeadline_cases _ _ _ Hsafe). fold now.
    destruct Hd as [Hlo Hhi].
    apply Z.ltb_ge in Hlo. rewrite Hlo.
    rewrite Z.gtb_ltb. apply Z.ltb_ge in Hhi. rewrite Hhi. reflexivity.
Qed.

Lemma calculateDeadline_passes_validateDeadline_witness :
  Z.abs 1700000000000 <= 8640000000000000 /\
  exists d,
    calculateDeadline 1700000000000 30 false = Ok d /\
    1700000000000 / 1000 + min_duration false <= d
      <= 1700000000000 / 1000 + MAX_DEADLINE_DURATION_SECONDS /\
    validateDeadline 1700000000000 d false = Ok {| valid := true; error := None |}.
Proof.
  assert (H : Z.abs 1700000000000 <= 8640000000000000) by (vm_compute; discriminate).
  split; [exact H|].
  exact (calculateDeadline_passes_validateDeadline 1700000000000 30 false H).
Defined.

End Deadlines.

(** ** Percentages and basis points *)

Section BasisPoints.
Import Utils.

(** Closes [x <> y] for two closed doubles that [===] tells apart. *)
Ltac float_neq :=
  let H := fresh in
  intros H;
  match type of H with
  | ?x = ?y => apply (f_equal (fun v => PrimFloat.eqb v y)) in H
  end;
  vm_compute in H; discriminate H.

(** [Math.floor] on a double with a fraction part, [(-1)^s * m * 2^e] with
    [e < 0]: the result holds the integer [n] with [n <= x < n + 1], the
    three numbers being compared exactly after scaling by [2^-e]. *)
Lemma Math_floor_below (x : float) (s : bool) (m : positive) (e : Z) :
  Prim2SF x = S754_finite s m e -> e < 0 ->
  exists n : Z,
    Math_floor x = number_of_Z n /\
    n * 2 ^ (- e) <= signed s m < (n + 1) * 2 ^ (- e).
Proof.
  intros Hx He. exists (signed s m / 2 ^ (- e)). split.
  - unfold Math_floor. rewrite Hx.
    destruct (0 <=? e) eqn:H0; [apply Z.leb_le in H0; lia|reflexivity].
  - assert (Hpos : 0 < 2 ^ (- e)) by (apply Z.pow_pos_nonneg; lia).
    pose proof (Z.mul_div_le (signed s m) _ Hpos).
    pose proof (Z.mul_succ_div_gt (signed s m) _ Hpos).
    lia.
Qed.

(** The division of bigints truncates toward zero: the quotient times the
    divisor is never farther from zero than the dividend. *)
Lemma quot_toward_zero (a : Z) :
  Z.abs (10000 * Z.quot a 10000) <= Z.abs a /\
  (0 <= a -> Z.quot a 10000 = a / 10000).
Proof.
  split.
  - pose proof (Z.quot_rem' a 10000) as Hqr.
    destruct (Z.le_gt_cases 0 a) as [Hpos|Hneg].
    + pose proof (Z.rem_bound_pos_pos a 10000 ltac:(lia) Hpos). lia.
    + pose proof (Z.rem_bound_pos_neg a 10000 ltac:(lia) ltac:(lia)). lia.
  - intros Hpos. apply Z.quot_div_nonneg; lia.
Qed.

(** C4, what fails.  [bpsToPercent] does not truncate: 5000 basis points
    give 0.5, not the integer quotient 0, and 1 basis point gives 0.0001;
    and on a negative amount the truncating division of [percentageOf]
    gives 0 where the floor is -1. *)
Lemma percent_helpers_not_all_truncating :
  bpsToPercent 5000 = 0.5%float /\
  bpsToPercent 5000 <> number_of_Z (Z.quot 5000 10000) /\
  bpsToPercent 1 <> number_of_Z (Z.quot 1 10000) /\
  percentageOf (-1) 50 = Ok 0 /\
  Ok (A := Z) ((-1 * 5000) / 10000) <> percentageOf (-1) 50.
Proof.
  split; [vm_compute; reflexivity|].
  split; [float_neq|]. split; [float_neq|].
  split; [vm_compute; reflexivity|].
  vm_compute. discriminate.
Qed.

(** C4, amended.  [percentToBps(p)] is [Math.floor] of the double product
    [p * 10000], which never exceeds that product; [bpsToPercent(b)] is the
    double quotient [b / 10000], a fraction that is not truncated;
    [percentageOf(amount, pct)] is [amount * floor(pct * 100)] divided by
    10000 with truncation toward zero, which is the floor whenever that
    product is non-negative. *)
Theorem percent_helpers_arithmetic (p b pct : float) (amount : Z) :
  percentToBps p = Math_floor (p * 10000)%float
  /\ (forall s m e, Prim2SF (p * 10000)%float = S754_finite s m e -> e < 0 ->
        exists n, percentToBps p = number_of_Z n /\
                  n * 2 ^ (- e) <= signed s m < (n + 1) * 2 ^ (- e))
  /\ bpsToPercent b = (b / 10000)%float
  /\ (forall k, BigInt (Math_floor (pct * 100)%float) = Ok k ->
        percentageOf amount pct = Ok (Z.quot (amount * k) 10000) /\
        Z.abs (10000 * Z.quot (amount * k) 10000) <= Z.abs (amount * k) /\
        (0 <= amount * k -> Z.quot (amount * k) 10000 = (amount * k) / 10000)).
Proof.
  split; [reflexivity|]. split; [|split; [reflexivity|]].
  - intros s m e Hx He. unfold percentToBps.
    exact (Math_floor_below _ s m e Hx He).
  - intros k Hk. split.
    + unfold percentageOf. rewrite Hk. reflexivity.
    + apply quot_toward_zero.
Qed.

Example percentageOf_quarter : percentageOf 1000000 25 = Ok 250000.
Proof. vm_compute. reflexivity. Qed.

Example percentToBps_half : percentToBps 0.5 = 5000%float.
Proof. vm_compute. reflexivity. Qed.




(** The same on the whole percentages 0 to 100 themselves, which the round
    trip gives back unchanged. *)
Lemma roundtrip_exact_on_whole_percentages (n : Z) :
  0 <= n <= 100 ->
  bpsToPercent (percentToBps (number_of_Z n)) = number_of_Z n.
Proof.
  intros Hn.
  assert (Hall : forallb (fun i =>
            PrimFloat.Leibniz.eqb
              (bpsToPercent (percentToBps (number_of_Z (Z.of_nat i))))
              (number_of_Z (Z.of_nat i)))
            (seq 0 (Z.to_nat 101)) = true) by (vm_compute; reflexivity).
  rewrite forallb_forall in Hall.
  specialize (Hall (Z.to_nat n)). rewrite Z2Nat.id in Hall by lia.
  apply Leibniz.eqb_spec, Hall. apply in_seq. lia.
Qed.


End BasisPoints.

(** ** Address derivation *)

Lemma transparent_web3_collision_free : collision_free transparent_web3.
Proof.
  intros s1 s2 pid a1 b1 a2 b2 H1 H2 Heq. simpl in H1, H2.
  injection H1 as <- _. injection H2 as <- _.
  apply app_inv_tail in Heq. exact Heq.
Qed.

Section AddressDerivation.
Context {W : Web3}.
Import Constants Pdas.

Lemma pda_of_Ok seeds programId a :
  pda_of seeds programId = Ok a ->
  exists b, findProgramAddressSync seeds programId = Ok (a, b).
Proof.
  unfold pda_of. destruct (findProgramAddressSync seeds programId) as [[a' b]|e];
    simpl; [|discriminate].
  intros [= <-]. exists b. reflexivity.
Qed.

Lemma Buffer_from_string_inj (s1 s2 : string) :
  Buffer_from_string s1 = Buffer_from_string s2 -> s1 = s2.
Proof.
  unfold Buffer_from_string. intros H.
  rewrite <- (string_of_list_byte_of_string s1),
          <- (string_of_list_byte_of_string s2), H.
  reflexivity.
Qed.

Lemma prefix_of_inj (k1 k2 : EntityKind) : prefix_of k1 = prefix_of k2 -> k1 = k2.
Proof. destruct k1, k2; intros H; try reflexivity; discriminate H. Qed.

(** Every derivation of the SDK that takes no identifier is [derive] at its
    kind; one that takes identifiers is [derive] once they are encoded. *)
Lemma derivations_are_derive (p q programId : PublicKey) (n : Z) :
  getMilestonePDA p n programId
    = derive KMilestone [toBuffer p; Buffer_from_array [n]] programId /\
  getInvestmentPDA p q programId
    = derive KInvestment [toBuffer p; toBuffer q] programId /\
  getVotePDA p q n programId
    = derive KVote [toBuffer p; toBuffer q; Buffer_from_array [n]] programId /\
  getPivotProposalPDA p n programId
    = derive KPivotProposal [toBuffer p; Buffer_from_array [n]] programId /\
  getTgeEscrowPDA p programId = derive KTgeEscrow [toBuffer p] programId /\
  getTgeEscrowVaultPDA p programId = derive KTgeEscrowVault [toBuffer p] programId /\
  getTokenVaultPDA p programId = derive KTokenVault [toBuffer p] programId /\
  getScamReportPDA p q programId
    = derive KScamReport [toBuffer p; toBuffer q] programId /\
  getAdminConfigPDA programId = derive KAdminConfig [] programId /\
  getTokenomicsPDA p programId = derive KTokenomics [toBuffer p] programId /\
  getTokenMintPDA p programId = derive KTokenMint [toBuffer p] programId /\
  getVaultAuthorityPDA p programId = derive KVaultAuthority [toBuffer p] programId /\
  getInvestorVaultPDA p programId = derive KInvestorVault [toBuffer p] programId /\
  getFounderVaultPDA p programId = derive KFounderVault [toBuffer p] programId /\
  getLpTokenVaultPDA p programId = derive KLpTokenVault [toBuffer p] programId /\
  getTreasuryVaultPDA p programId = derive KTreasuryVault [toBuffer p] programId /\
  getLpUsdcVaultPDA p programId = derive KLpUsdcVault [toBuffer p] programId /\
  getFounderVestingPDA p programId = derive KFounderVesting [toBuffer p] programId /\
  getProjectPDA n programId
    = (id8 <- BN_toArrayLike_le n 8 ;; derive KProject [id8] programId) /\
  getEscrowPDA n programId
    = (id8 <- BN_toArrayLike_le n 8 ;; derive KEscrow [id8] programId) /\
  (r <- getProgramAuthorityPDA programId ;; Ok (fst r))
    = derive KAuthority [] programId /\
  (forall count,
     (r <- getNftMintPDA n p count programId ;; Ok (fst r))
       = (id8 <- BN_toArrayLike_le n 8 ;;
          count8 <- BN_toArrayLike_le count 8 ;;
          derive KNftMint [id8; toBuffer p; count8] programId)).
Proof.
  repeat split. intros count. unfold getNftMintPDA, ensureBN.
  destruct (BN_toArrayLike_le n 8); [|reflexivity].
  destruct (BN_toArrayLike_le count 8); reflexivity.
Qed.

(** The bytes hashed for a milestone start with 'm', those hashed for an
    investment with 'i'. *)
Lemma milestone_investment_seeds_differ (p1 p2 q : PublicKey) (n : Z) :
  List.concat [Buffer_from_string SEEDS.MILESTONE; toBuffer p1; Buffer_from_array [n]]
  <> List.concat [Buffer_from_string SEEDS.INVESTMENT; toBuffer p2; toBuffer q].
Proof. cbn. discriminate. Qed.

(** Distinct kinds put distinct bytes before the same raw seed bytes,
    however these are cut into seeds. *)
Lemma prefixed_seeds_differ (k1 k2 : EntityKind) (raw1 raw2 : list Buffer) :
  k1 <> k2 ->
  List.concat raw1 = List.concat raw2 ->
  List.concat (Buffer_from_string (prefix_of k1) :: raw1)
  <> List.concat (Buffer_from_string (prefix_of k2) :: raw2).
Proof.
  intros Hne Hraw H. simpl in H. rewrite Hraw in H. apply app_inv_tail in H.
  apply Hne, prefix_of_inj, Buffer_from_string_inj, H.
Qed.

(** C2. With a collision-free hash, a milestone address (prefix
    'milestone', a project address, a one-byte index) and an investment
    address (prefix 'investment', a project address, a mint address) are
    always distinct, and more generally two distinct entity kinds never
    derive the same address from the same raw seed bytes: the
    kind-specific prefix that every derivation puts first makes the hashed
    bytes differ. *)
Theorem pda_kinds_never_collide :
  collision_free W ->
  (forall projectPda projectPda' milestoneIndex nftMint programId a b,
     getMilestonePDA projectPda milestoneIndex programId = Ok a ->
     getInvestmentPDA projectPda' nftMint programId = Ok b ->
     a <> b)
  /\
  (forall k1 k2 raw1 raw2 programId a b,
     k1 <> k2 ->
     List.concat raw1 = List.concat raw2 ->
     derive k1 raw1 programId = Ok a ->
     derive k2 raw2 programId = Ok b ->
     a <> b).
Proof.
  intros Hfree. split.
  - intros p p' n q programId a b Ha Hb Heq.
    apply pda_of_Ok in Ha as [ba Ha]. apply pda_of_Ok in Hb as [bb Hb].
    exact (milestone_investment_seeds_differ p p' q n
             (Hfree _ _ _ _ _ _ _ Ha Hb Heq)).
  - intros k1 k2 raw1 raw2 programId a b Hne Hraw Ha Hb Heq.
    apply pda_of_Ok in Ha as [ba Ha]. apply pda_of_Ok in Hb as [bb Hb].
    exact (prefixed_seeds_differ k1 k2 raw1 raw2 Hne Hraw
             (Hfree _ _ _ _ _ _ _ Ha Hb Heq)).
Qed.

End AddressDerivation.

Lemma pda_kinds_never_collide_witness :
  collision_free transparent_web3 /\
  (forall a b,
     Pdas.getMilestonePDA sample_project 1 sample_program = Ok a ->
     Pdas.getInvestmentPDA sample_project sample_mint sample_program = Ok b ->
     a <> b).
Proof.
  split; [exact transparent_web3_collision_free|].
  intros a b.
  exact (proj1 (pda_kinds_never_collide transparent_web3_collision_free)
           sample_project sample_project 1 sample_mint sample_program a b).
Defined.

(** ** Seed widths *)

(** C3, what fails.  The milestone index 256 does not fit in one byte, yet
    the derivation does not fail: [Buffer.from([256])] is the byte 0, and
    the address returned is the address of milestone 0.  The same holds
    for a voting round of 256. *)
Lemma one_byte_seed_256_is_coerced :
  ~ (0 <= 256 < 256) /\
  Buffer_from_array [256] = Buffer_from_array [0] /\
  is_ok (Pdas.getMilestonePDA sample_project 256 sample_program) = true /\
  Pdas.getMilestonePDA sample_project 256 sample_program
    = Pdas.getMilestonePDA sample_project 0 sample_program /\
  is_ok (Pdas.getVotePDA sample_project sample_mint 256 sample_program) = true /\
  Pdas.getVotePDA sample_project sample_mint 256 sample_program
    = Pdas.getVotePDA sample_project sample_mint 0 sample_program.
Proof. split; [lia|]. repeat split. Qed.

Section SeedWidths.
Context {W : Web3} {L : Ledger}.
Import Constants Pdas Instructions.

Lemma byte_of_Z_mod (v : Z) : byte_of_Z (v mod 256) = byte_of_Z v.
Proof. unfold byte_of_Z. rewrite Z.mod_mod by lia. reflexivity. Qed.

Lemma BN_toArrayLike_le_too_wide (b : Z) :
  2 ^ 64 <= Z.abs b ->
  BN_toArrayLike_le b 8
    = Throw (AssertionError "byte array longer than desired length").
Proof.
  intros H. unfold BN_toArrayLike_le.
  change (256 ^ Z.of_nat 8) with (2 ^ 64).
  apply Z.ltb_ge in H. rewrite H. reflexivity.
Qed.

Lemma BN_toArrayLike_le_fits (b : Z) :
  Z.abs b < 2 ^ 64 ->
  BN_toArrayLike_le b 8 = Ok (le_bytes 8 (Z.abs b)) /\
  List.length (le_bytes 8 (Z.abs b)) = 8%nat.
Proof.
  intros H. unfold BN_toArrayLike_le.
  change (256 ^ Z.of_nat 8) with (2 ^ 64).
  apply Z.ltb_lt in H. rewrite H. split; reflexivity.
Qed.

(** C3, amended.  Only the identifiers encoded on 8 little-endian bytes
    are checked: one of 2^64 or more makes the derivation throw the
    assertion error of bn.js before anything is hashed, and an instruction
    built on it throws before the ledger is reached; a smaller one is
    encoded on exactly 8 bytes.  A one-byte seed (milestone index, voting
    round, pivot count) is not checked: the derivation keeps it modulo 256,
    so that [n] and [n mod 256] derive the same address. *)
Theorem seed_width_handling :
  (forall projectId programId,
     2 ^ 64 <= Z.abs projectId ->
     getProjectPDA projectId programId
       = Throw (AssertionError "byte array longer than desired length") /\
     getEscrowPDA projectId programId
       = Throw (AssertionError "byte array longer than desired length") /\
     (forall investor investmentCount,
        getNftMintPDA projectId investor investmentCount programId
          = Throw (AssertionError "byte array longer than desired length")))
  /\
  (forall program a founder st,
     2 ^ 64 <= Z.abs (projectId a) ->
     extendMilestoneDeadline program a founder st
       = (Throw (AssertionError "byte array longer than desired length"), st))
  /\
  (forall projectId programId,
     Z.abs projectId < 2 ^ 64 ->
     exists id8,
       List.length id8 = 8%nat /\
       getProjectPDA projectId programId
         = pda_of [Buffer_from_string SEEDS.PROJECT; id8] programId)
  /\
  (forall projectPda n programId,
     getMilestonePDA projectPda n programId
       = getMilestonePDA projectPda (n mod 256) programId)
  /\
  (forall milestonePda voterKey n programId,
     getVotePDA milestonePda voterKey n programId
       = getVotePDA milestonePda voterKey (n mod 256) programId)
  /\
  (forall projectPda n programId,
     getPivotProposalPDA projectPda n programId
       = getPivotProposalPDA projectPda (n mod 256) programId).
Proof.
  split; [|split; [|split; [|split; [|split]]]].
  - intros projectId programId H.
    unfold getProjectPDA, getEscrowPDA, getNftMintPDA, ensureBN.
    rewrite (BN_toArrayLike_le_too_wide _ H). repeat split.
  - intros program a founder st H. unfold extendMilestoneDeadline.
    unfold getProjectPDA, ensureBN.
    rewrite (BN_toArrayLike_le_too_wide _ H). reflexivity.
  - intros projectId programId H.
    destruct (BN_toArrayLike_le_fits _ H) as [Hok Hlen].
    exists (le_bytes 8 (Z.abs projectId)). split; [exact Hlen|].
    unfold getProjectPDA, ensureBN. rewrite Hok. reflexivity.
  - intros p n programId. unfold getMilestonePDA, Buffer_from_array. simpl.
    rewrite byte_of_Z_mod. reflexivity.
  - intros m v n programId. unfold getVotePDA, Buffer_from_array. simpl.
    rewrite byte_of_Z_mod. reflexivity.
  - intros p n programId. unfold getPivotProposalPDA, Buffer_from_array. simpl.
    rewrite byte_of_Z_mod. reflexivity.
Qed.

End SeedWidths.

(** The largest identifier that fits, and the first that does not. *)
Example project_id_max_fits :
  is_ok (Pdas.getProjectPDA (2 ^ 64 - 1) sample_program) = true.
Proof. vm_compute. reflexivity. Qed.

Example project_id_too_wide :
  Pdas.getProjectPDA (2 ^ 64) sample_program
    = Throw (AssertionError "byte array longer than desired length").
Proof. vm_compute. reflexivity. Qed.

(** ** Deadline extensions *)

Example about_deadline_extension_example :
  about_deadline_extension "DeadlineExtensionLimitReached" = true /\
  about_deadline_extension "Maximum deadline extensions reached" = true /\
  about_deadline_extension "MilestoneNotApproved" = false.
Proof. repeat split. Qed.

Lemma error_names_silent_on_extensions :
  forall e, In e Errors.ERROR_CODES ->
    about_deadline_extension (Errors.entry_name e) = false.
Proof.
  assert (Hall : forallb (fun e => negb (about_deadline_extension
                                           (Errors.entry_name e)))
                   Errors.ERROR_CODES = true) by (vm_compute; reflexivity).
  rewrite forallb_forall in Hall. intros e He.
  apply negb_true_iff, Hall, He.
Qed.

Lemma error_messages_silent_on_extensions :
  forall cm, In cm Errors.ERROR_MESSAGES ->
    about_deadline_extension (snd cm) = false.
Proof.
  assert (Hall : forallb (fun cm => negb (about_deadline_extension (snd cm)))
                   Errors.ERROR_MESSAGES = true) by (vm_compute; reflexivity).
  rewrite forallb_forall in Hall. intros cm Hcm.
  apply negb_true_iff, Hall, Hcm.
Qed.

(** C7, what fails.  The error taxonomy has no deadline-extension-exhausted
    condition: no name of [ERROR_CODES] and no message of [ERROR_MESSAGES]
    speaks of a deadline or of an extension, and the milestone errors are
    the five codes 6300 to 6304. *)
Lemma taxonomy_has_no_deadline_extension_error :
  ~ (exists e, In e Errors.ERROR_CODES /\
               about_deadline_extension (Errors.entry_name e) = true) /\
  ~ (exists cm, In cm Errors.ERROR_MESSAGES /\
                about_deadline_extension (snd cm) = true) /\
  map (fun e => (Errors.entry_name e, Errors.entry_code e))
      (filter (fun e => match Errors.entry_category e with
                        | Errors.Milestone => true
                        | _ => false
                        end) Errors.ERROR_CODES)
    = [("InvalidMilestoneIndex", 6300); ("MilestonePercentageInvalid", 6301);
       ("TotalPercentageExceeded", 6302); ("MilestoneNotInProgress", 6303);
       ("MilestoneNotApproved", 6304)].
Proof.
  split; [|split; [|reflexivity]].
  - intros [e [Hin Habout]].
    rewrite (error_names_silent_on_extensions e Hin) in Habout. discriminate.
  - intros [cm [Hin Habout]].
    rewrite (error_messages_silent_on_extensions cm Hin) in Habout. discriminate.
Qed.

Section DeadlineExtensions.
Context {W : Web3}.
Variable key_eqb : PublicKey -> PublicKey -> bool.
Variable refusal : LedgerProgram.Refusal -> exn.
Import Pdas Instructions Errors LedgerProgram.

Lemma find_milestone_In address records m :
  find_milestone key_eqb address records = Some m ->
  exists key, In (key, m) records.
Proof.
  induction records as [|[key m0] rest IH]; cbn [find_milestone]; [discriminate|].
  destruct (key_eqb address key).
  - intros [= <-]. exists key. left. reflexivity.
  - intros H. destruct (IH H) as [key' Hin]. exists key'. right. exact Hin.
Qed.

Lemma find_store_milestone address records m m' :
  find_milestone key_eqb address records = Some m ->
  find_milestone key_eqb address (store_milestone key_eqb address m' records)
    = Some m'.
Proof.
  induction records as [|[key m0] rest IH];
    cbn [find_milestone store_milestone]; [discriminate|].
  destruct (key_eqb address key) eqn:Hkey; cbn [find_milestone]; rewrite Hkey.
  - reflexivity.
  - exact IH.
Qed.

Lemma store_milestone_Forall (P : PublicKey * MilestoneRecord -> Prop)
    address records m' :
  Forall P records ->
  (forall key, P (key, m')) ->
  Forall P (store_milestone key_eqb address m' records).
Proof.
  intros Hall Hnew. induction Hall as [|[key m0] rest Hhead Hrest IH];
    cbn [store_milestone]; [constructor|].
  destruct (key_eqb address key); constructor; auto.
Qed.

Lemma extend_deadline_accepts now m newDeadline m' :
  extend_deadline now m newDeadline = inl m' <->
  extensionCount m < MAX_DEADLINE_EXTENSIONS /\
  now < milestoneDeadline m /\
  milestoneDeadline m < newDeadline /\
  m' = {| milestoneDeadline := newDeadline;
          extensionCount := extensionCount m + 1 |}.
Proof.
  unfold extend_deadline.
  destruct (MAX_DEADLINE_EXTENSIONS <=? extensionCount m) eqn:H1;
    [apply Z.leb_le in H1|apply Z.leb_gt in H1].
  { split; [discriminate|lia]. }
  destruct (milestoneDeadline m <=? now) eqn:H2;
    [apply Z.leb_le in H2|apply Z.leb_gt in H2].
  { split; [discriminate|lia]. }
  destruct (newDeadline <=? milestoneDeadline m) eqn:H3;
    [apply Z.leb_le in H3|apply Z.leb_gt in H3].
  { split; [discriminate|lia]. }
  split.
  - intros [= <-]. repeat split; assumption.
  - intros (_ & _ & _ & ->). reflexivity.
Qed.

Lemma execute_within_limit instruction st :
  within_limit st ->
  within_limit (snd (execute key_eqb refusal instruction st)).
Proof.
  intros Hst. unfold execute.
  destruct (String.eqb _ _); [|exact Hst].
  destruct (named "milestone" _) as [address|]; [|exact Hst].
  destruct (named "newDeadline" _) as [newDeadline|]; [|exact Hst].
  destruct (find_milestone _ _ _) as [m|]; [|exact Hst].
  destruct (extend_deadline _ _ _) as [m'|r] eqn:Hext; [|exact Hst].
  apply extend_deadline_accepts in Hext as (Hcount & _ & _ & ->).
  cbn [snd]. unfold within_limit. cbn [milestones].
  apply store_milestone_Forall; [exact Hst|].
  intros key. cbn [snd extensionCount]. lia.
Qed.

Lemma step_within_limit program st st' :
  step key_eqb refusal program st st' -> within_limit st -> within_limit st'.
Proof.
  intros Hstep Hst. destruct Hstep as [a founder st|st later Hlater].
  - unfold extendMilestoneDeadline.
    destruct (getProjectPDA _ _) as [projectPda|e]; [|exact Hst].
    destruct (getMilestonePDA _ _ _) as [milestonePda|e]; [|exact Hst].
    apply execute_within_limit, Hst.
  - exact Hst.
Qed.

(** C7, amended.  On the ledger program as the spec describes it, no
    milestone ever has more than three deadline extensions, whatever the
    client submits and however time passes.  Through
    [extendMilestoneDeadline] an extension is accepted exactly when fewer
    than three were accepted before, the deadline is still in the future
    and the new deadline is later; it then moves the deadline and counts
    one more.  On a milestone that has its three extensions the attempt
    fails with the ledger's deadline-extension-exhausted condition, which
    the client hands to its caller as the ledger sent it, the ledger
    unchanged.  No name of the client's error taxonomy speaks of a deadline
    or of an extension. *)
Theorem deadline_extensions_never_exceed_three :
  (forall program st st',
     within_limit st ->
     history key_eqb refusal program st st' ->
     within_limit st')
  /\
  (forall program a founder st projectPda milestonePda m,
     getProjectPDA (projectId a) (programId program) = Ok projectPda ->
     getMilestonePDA projectPda (milestoneIndex a) (programId program)
       = Ok milestonePda ->
     find_milestone key_eqb milestonePda (milestones st) = Some m ->
     let attempt :=
       @extendMilestoneDeadline W (ledger key_eqb refusal) program a founder st in
     (MAX_DEADLINE_EXTENSIONS <= extensionCount m ->
      attempt = (Throw (refusal DeadlineExtensionExhausted), st)) /\
     (is_ok (fst attempt) = true <->
      extensionCount m < MAX_DEADLINE_EXTENSIONS /\
      clock st < milestoneDeadline m /\
      milestoneDeadline m < deadline a) /\
     (is_ok (fst attempt) = true ->
      clock (snd attempt) = clock st /\
      find_milestone key_eqb milestonePda (milestones (snd attempt))
        = Some {| milestoneDeadline := deadline a;
                  extensionCount := extensionCount m + 1 |}) /\
     (is_ok (fst attempt) = false -> snd attempt = st))
  /\
  (forall e, In e ERROR_CODES -> about_deadline_extension (entry_name e) = false).
Proof.
  split; [|split].
  - intros program st st' Hst Hhist. induction Hhist as [st|st1 st2 st3 Hstep _ IH].
    + exact Hst.
    + apply IH. exact (step_within_limit program st1 st2 Hstep Hst).
  - intros program a founder st projectPda milestonePda m Hp Hm Hfind attempt.
    assert (Hattempt :
      attempt =
      match extend_deadline (clock st) m (deadline a) with
      | inl m' =>
          (Ok "signature",
           {| clock := clock st;
              milestones := store_milestone key_eqb milestonePda m' (milestones st) |})
      | inr r => (Throw (refusal r), st)
      end).
    { unfold attempt, extendMilestoneDeadline. rewrite Hp, Hm.
      cbn [rpc ledger]. unfold execute.
      cbn [method args accounts named String.eqb Ascii.eqb Bool.eqb].
      rewrite Hfind. reflexivity. }
    rewrite Hattempt. clear Hattempt attempt.
    destruct (extend_deadline (clock st) m (deadline a)) as [m'|r] eqn:Hext.
    + apply extend_deadline_accepts in Hext as Hacc.
      destruct Hacc as (Hcount & Hfuture & Hforward & ->).
      cbn [fst snd is_ok clock milestones].
      split; [intros Hfull; lia|]. split; [tauto|]. split.
      * intros _. split; [reflexivity|].
        exact (find_store_milestone _ _ _ _ Hfind).
      * discriminate.
    + cbn [fst snd is_ok]. split; [|split; [|split]].
      * intros Hfull. unfold extend_deadline in Hext.
        apply Z.leb_le in Hfull. rewrite Hfull in Hext.
        injection Hext as <-. reflexivity.
      * split; [discriminate|]. intros (Hcount & Hfuture & Hforward).
        assert (Hacc : extend_deadline (clock st) m (deadline a)
                       = inl {| milestoneDeadline := deadline a;
                                extensionCount := extensionCount m + 1 |})
          by (apply extend_deadline_accepts; repeat split; assumption).
        rewrite Hacc in Hext. discriminate Hext.
      * discriminate.
      * reflexivity.
  - exact error_names_silent_on_extensions.
Qed.

End DeadlineExtensions.

Lemma deadline_extensions_never_exceed_three_witness :
  LedgerProgram.within_limit sample_ledger /\
  fst four_extensions
    = [Ok "signature"; Ok "signature"; Ok "signature";
       Throw (sample_refusal LedgerProgram.DeadlineExtensionExhausted)] /\
  snd four_extensions
    = extended 1800000004
        (extended 1800000003 (extended 1800000002 (extended 1800000001 sample_ledger))) /\
  LedgerProgram.within_limit
    (extended 1800000004
       (extended 1800000003 (extended 1800000002 (extended 1800000001 sample_ledger)))).
Proof.
  assert (Hstart : LedgerProgram.within_limit sample_ledger).
  { repeat constructor. vm_compute. discriminate. }
  split; [exact Hstart|]. split; [vm_compute; reflexivity|].
  split; [vm_compute; reflexivity|].
  apply (proj1 (@deadline_extensions_never_exceed_three
                  transparent_web3 same_bytes sample_refusal)
           {| Instructions.programId := sample_program |} sample_ledger _ Hstart).
  apply (LedgerProgram.history_cons _ _ _ _ (extended 1800000001 sample_ledger));
    [apply LedgerProgram.step_extend|].
  apply (LedgerProgram.history_cons _ _ _ _
           (extended 1800000002 (extended 1800000001 sample_ledger)));
    [apply LedgerProgram.step_extend|].
  apply (LedgerProgram.history_cons _ _ _ _
           (extended 1800000003
              (extended 1800000002 (extended 1800000001 sample_ledger))));
    [apply LedgerProgram.step_extend|].
  apply (LedgerProgram.history_cons _ _ _ _
           (extended 1800000004
              (extended 1800000003
                 (extended 1800000002 (extended 1800000001 sample_ledger)))));
    [apply LedgerProgram.step_extend|].
  apply LedgerProgram.history_nil.
Defined.

(* ================================================================= *)
(** * Further properties of the code *)
(* ================================================================= *)

(** ** Legacy tiers and USDC amounts *)

Section LegacyTiers.
Import Constants.

(** X1. From the Bronze minimum upward [getTierFromAmount] returns the tier
    that [findTierIndex] finds in the list of legacy minimums; below the
    Bronze minimum [findTierIndex] finds no tier while [getTierFromAmount]
    still answers Bronze. *)
Theorem getTierFromAmount_matches_findTierIndex (amt : Z) :
  (TIER_MINIMUMS Bronze <= amt ->
     findTierIndex legacy_tiers amt = Some (tier_rank (getTierFromAmount amt)) /\
     TIER_MINIMUMS (getTierFromAmount amt) <= amt) /\
  (amt < TIER_MINIMUMS Bronze ->
     findTierIndex legacy_tiers amt = None /\
     getTierFromAmount amt = Bronze).
Proof.
  unfold getTierFromAmount, findTierIndex, legacy_tiers, legacy_order.
  cbn -[Z.geb Z.le Z.lt].
  repeat match goal with
         | |- context [?a >=? ?b] =>
             let H := fresh "H" in
             destruct (a >=? b) eqn:H;
             [apply Z.geb_le in H | rewrite Z.geb_leb in H; apply Z.leb_gt in H]
         end;
    cbn; split; intros; try split; try reflexivity; try lia.
Qed.

(** The five multipliers, as doubles. *)
Lemma multiplier_values :
  map (fun t => (number_of_Z (TIER_VOTE_MULTIPLIERS t) / 100)%float) legacy_order
  = [1%float; 0x1.3333333333333p+0%float (* 1.2 *); 1.5%float; 2%float; 3%float].
Proof. vm_compute. reflexivity. Qed.

Lemma tier_rank_monotone (a b : Z) :
  a <= b -> (tier_rank (getTierFromAmount a) <= tier_rank (getTierFromAmount b))%nat.
Proof.
  intros Hab. unfold getTierFromAmount. cbn -[Z.geb].
  repeat match goal with
         | |- context [?x >=? ?y] =>
             let H := fresh "H" in
             destruct (x >=? y) eqn:H;
             [apply Z.geb_le in H | rewrite Z.geb_leb in H; apply Z.leb_gt in H]
         end; cbn; lia.
Qed.

(** X2. The vote multiplier of an amount is its token multiplier; it lies
    between 1 and 3 and never decreases when the amount grows. *)
Theorem getVoteMultiplier_monotone (a b : Z) :
  a <= b ->
  PrimFloat.leb (getVoteMultiplier a) (getVoteMultiplier b) = true /\
  getTokenMultiplier a = getVoteMultiplier a /\
  PrimFloat.leb 1 (getVoteMultiplier a) = true /\
  PrimFloat.leb (getVoteMultiplier a) 3 = true.
Proof.
  intros Hab. pose proof (tier_rank_monotone a b Hab) as Hrank.
  unfold getVoteMultiplier, getTokenMultiplier.
  destruct (getTierFromAmount a), (getTierFromAmount b); cbn in Hrank;
    try lia; vm_compute; repeat split.
Qed.

Lemma getVoteMultiplier_monotone_witness :
  100000000 <= 5000000000 /\
  PrimFloat.leb (getVoteMultiplier 100000000) (getVoteMultiplier 5000000000) = true.
Proof.
  assert (H : 100000000 <= 5000000000) by lia.
  split; [exact H|].
  exact (proj1 (getVoteMultiplier_monotone 100000000 5000000000 H)).
Defined.

Lemma usdc_whole_exact_all : forallb usdc_whole_exact (seq 0 (Z.to_nat 10001)) = true.
Proof. vm_compute. reflexivity. Qed.

(** X3. For every whole number of USDC from 0 to 10000, [USDC.toAmount]
    gives exactly a million lamports per USDC and [USDC.fromAmount] gives
    the number back.  Amounts with a fraction are not always exact:
    2.01 USDC becomes 2009999 lamports, and 249 lamports come back as
    248. *)
Theorem USDC_whole_amounts_round_trip :
  (forall u, 0 <= u <= 10000 ->
     USDC.toAmount (number_of_Z u) = Ok (u * 1000000) /\
     USDC.fromAmount (u * 1000000) = number_of_Z u)
  /\ USDC.toAmount 0x1.0147ae147ae14p+1 (* 2.01 *) = Ok 2009999
  /\ USDC.toAmount (USDC.fromAmount 249) = Ok 248.
Proof.
  split; [|split; vm_compute; reflexivity].
  intros u Hu. pose proof usdc_whole_exact_all as Hall.
  rewrite forallb_forall in Hall.
  specialize (Hall (Z.to_nat u) ltac:(apply in_seq; lia)).
  unfold usdc_whole_exact in Hall. rewrite Z2Nat.id in Hall by lia.
  destruct (USDC.toAmount (number_of_Z u)) as [lamports|e]; [|discriminate].
  apply andb_true_iff in Hall as [Hl Hf]. apply Z.eqb_eq in Hl. subst lamports.
  split; [reflexivity|]. apply Leibniz.eqb_spec. exact Hf.
Qed.

End LegacyTiers.

(** ** Conversions between BN, number and bigint *)

Section Conversions.
Import Utils.

(** X4. [bnToNumber] returns the value of every [BN] below 2^53 in
    magnitude and throws the assertion error of [toNumber] on every other;
    its own "too large" error is never thrown, the check after [toNumber]
    can never fail. *)
Theorem bnToNumber_safe_range (bn : Z) :
  (Z.abs bn < 2 ^ 53 -> bnToNumber bn = Ok bn) /\
  (2 ^ 53 <= Z.abs bn ->
     bnToNumber bn
       = Throw (AssertionError "Number can only safely store up to 53 bits")) /\
  (forall msg, bnToNumber bn <> Throw (LibraryError msg)).
Proof.
  unfold bnToNumber, BN_toNumber, Number_isSafeInteger.
  change (2 ^ 53) with 9007199254740992.
  destruct (Z.abs bn <? 9007199254740992) eqn:Hlt;
    [apply Z.ltb_lt in Hlt | apply Z.ltb_ge in Hlt]; cbn -[Z.leb Z.abs].
  - destruct (Z.abs bn <=? _) eqn:Hsafe;
      [|apply Z.leb_gt in Hsafe; lia].
    simpl. repeat split; intros; try lia; discriminate.
  - repeat split; intros; try lia; discriminate.
Qed.

Lemma decimal_round_trip (v : Z) : decimal_value (decimal_string v) = Ok v.
Proof.
  unfold decimal_value, decimal_string.
  rewrite NilZero.isi.
  - rewrite DecimalZ.of_to. reflexivity.
  - destruct v; simpl; try discriminate.
    intros [= H]. exact (Unsigned.to_uint_nonnil _ H).
  - destruct v; simpl; try discriminate.
    intros [= H]. exact (Unsigned.to_uint_nonnil _ H).
Qed.

(** X5. The conversions through a decimal text lose nothing:
    [bnToBigInt] and [bigIntToBN] succeed on every value, negative ones
    and zero included, and each undoes the other. *)
Theorem bn_bigint_round_trip (v : Z) :
  bnToBigInt v = Ok v /\
  bigIntToBN v = Ok v /\
  (b <- bnToBigInt v ;; bigIntToBN b) = Ok v /\
  (b <- bigIntToBN v ;; bnToBigInt b) = Ok v.
Proof.
  unfold bnToBigInt, bigIntToBN. rewrite !decimal_round_trip. simpl.
  rewrite !decimal_round_trip. repeat split.
Qed.

(** X6. On a number, or on a [BN] below 2^53 in magnitude,
    [timeRemaining] is never negative; it is zero exactly when the
    timestamp is not after the current second, and is the distance to the
    timestamp otherwise.  [hasTimestampPassed] is true exactly when the
    timestamp is before the current second: at the current second itself
    nothing remains although the timestamp has not passed.  On a [BN] of
    2^53 or more in magnitude both throw the assertion error of
    [toNumber]. *)
Theorem timeRemaining_and_hasTimestampPassed (Date_now ts : Z) :
  (forall timestamp,
     timestamp = Num ts \/ (timestamp = Bn ts /\ Z.abs ts < 2 ^ 53) ->
     exists remaining passed,
       timeRemaining Date_now timestamp = Ok remaining /\
       hasTimestampPassed Date_now timestamp = Ok passed /\
       0 <= remaining /\
       (remaining = 0 <-> ts <= getCurrentTimestamp Date_now) /\
       (0 < remaining -> remaining = ts - getCurrentTimestamp Date_now) /\
       (passed = true <-> ts < getCurrentTimestamp Date_now) /\
       (passed = true -> remaining = 0))
  /\
  (2 ^ 53 <= Z.abs ts ->
   timeRemaining Date_now (Bn ts)
     = Throw (AssertionError "Number can only safely store up to 53 bits") /\
   hasTimestampPassed Date_now (Bn ts)
     = Throw (AssertionError "Number can only safely store up to 53 bits")).
Proof.
  split.
  - intros timestamp Hcase.
    assert (Hts : timestamp_seconds timestamp = Ok ts).
    { destruct Hcase as [->|[-> Hsafe]]; [reflexivity|].
      unfold timestamp_seconds, BN_toNumber.
      apply Z.ltb_lt in Hsafe. rewrite Hsafe. reflexivity. }
    unfold timeRemaining, hasTimestampPassed. rewrite Hts. simpl.
    set (now := getCurrentTimestamp Date_now).
    eexists. eexists. split; [reflexivity|]. split; [reflexivity|].
    rewrite Z.gtb_ltb.
    destruct (0 <? ts - now) eqn:Hrem;
      [apply Z.ltb_lt in Hrem | apply Z.ltb_ge in Hrem];
      rewrite Z.gtb_ltb;
      destruct (ts <? now) eqn:Hp;
      [apply Z.ltb_lt in Hp | apply Z.ltb_ge in Hp
      |apply Z.ltb_lt in Hp | apply Z.ltb_ge in Hp];
      repeat split; intros; try lia; try discriminate.
  - intros Hwide. unfold timeRemaining, hasTimestampPassed, timestamp_seconds,
      BN_toNumber.
    apply Z.ltb_ge in Hwide. rewrite Hwide. split; reflexivity.
Qed.

Lemma timeRemaining_and_hasTimestampPassed_witness :
  Z.abs 1700000000 < 2 ^ 53 /\
  exists remaining passed,
    timeRemaining 1700000000999 (Bn 1700000000) = Ok remaining /\
    hasTimestampPassed 1700000000999 (Bn 1700000000) = Ok passed /\
    remaining = 0 /\ passed = false.
Proof.
  assert (H : Z.abs 1700000000 < 2 ^ 53) by (vm_compute; reflexivity).
  split; [exact H|].
  destruct (proj1 (timeRemaining_and_hasTimestampPassed 1700000000999 1700000000)
              (Bn 1700000000) (or_intror (conj eq_refl H)))
    as (remaining & passed & Hr & Hp & _).
  exists remaining, passed. split; [exact Hr|]. split; [exact Hp|].
  vm_compute in Hr, Hp. injection Hr as <-. injection Hp as <-.
  split; reflexivity.
Defined.

End Conversions.

(** ** Durations and shortened keys *)

Section Texts.
Import Utils.

Lemma length_append (a b : string) :
  String.length (a ++ b) = (String.length a + String.length b)%nat.
Proof. induction a as [|c a IH]; simpl; [reflexivity|]. rewrite IH. reflexivity. Qed.

Lemma length_substring (s : string) (n m : nat) :
  (n + m <= String.length s)%nat -> String.length (substring n m s) = m.
Proof.
  revert n m. induction s as [|c s IH]; intros n m H; simpl in *.
  - destruct n, m; simpl; lia.
  - destruct n as [|n].
    + destruct m as [|m]; simpl; [reflexivity|]. rewrite IH by lia. reflexivity.
    + apply IH. lia.
Qed.

Lemma substring_all (s : string) : substring 0 (String.length s) s = s.
Proof. induction s as [|c s IH]; simpl; [reflexivity|]. rewrite IH. reflexivity. Qed.

Lemma unit_text_not_empty (digits unit : string) :
  unit <> "" -> String.eqb (digits ++ unit) "" = false.
Proof.
  intros Hu. destruct digits; simpl; [|reflexivity].
  destruct unit; [contradiction|reflexivity].
Qed.

(** X7. [formatDuration] answers '0s' for every duration that is not
    positive and the plain count of seconds below a minute; it shows the
    seconds only below one day, so that from one day on two durations
    within the same minute read alike, and a whole number of days reads as
    that number followed by 'd'. *)
Theorem formatDuration_shape :
  (forall s, s <= 0 -> formatDuration s = "0s") /\
  (forall s, 0 < s < 60 -> formatDuration s = (decimal_string s ++ "s")%string) /\
  (forall s, 86400 <= s -> formatDuration s = formatDuration (s - Z.rem s 60)) /\
  (forall d, 0 < d -> formatDuration (d * 86400) = (decimal_string d ++ "d")%string).
Proof.
  split; [|split; [|split]].
  - intros s Hs. unfold formatDuration. apply Z.leb_le in Hs. rewrite Hs. reflexivity.
  - intros s Hs. unfold formatDuration.
    assert (H0 : (s <=? 0) = false) by (apply Z.leb_gt; lia). rewrite H0.
    rewrite !Z.rem_small by lia.
    rewrite !Z.div_small by lia.
    assert (Hsec : (s >? 0) = true) by (rewrite Z.gtb_ltb; apply Z.ltb_lt; lia).
    rewrite Hsec. cbn -[decimal_string String.eqb append].
    rewrite unit_text_not_empty by discriminate. reflexivity.
  - intros s Hs. unfold formatDuration.
    assert (Hrem : 0 <= Z.rem s 60 < 60) by (apply Z.rem_bound_pos; lia).
    set (s' := s - Z.rem s 60).
    assert (Hs' : 86400 <= s').
    { unfold s'. rewrite Z.rem_mod_nonneg in * by lia.
      pose proof (Z.div_mod s 60 ltac:(lia)).
      assert (1440 <= s / 60) by (apply Z.div_le_lower_bound; lia). lia. }
    assert (H0 : (s <=? 0) = false) by (apply Z.leb_gt; lia).
    assert (H0' : (s' <=? 0) = false) by (apply Z.leb_gt; lia).
    rewrite H0, H0'.
    assert (Hdiv : s' / 86400 = s / 86400 /\
                   Z.rem s' 86400 / 3600 = Z.rem s 86400 / 3600 /\
                   Z.rem s' 3600 / 60 = Z.rem s 3600 / 60).
    { unfold s' in *. rewrite !Z.rem_mod_nonneg in * by lia.
      Z.div_mod_to_equations. lia. }
    destruct Hdiv as (-> & -> & ->).
    assert (Hdays : 1 <= s / 86400) by (apply Z.div_le_lower_bound; lia).
    assert (Hz : (s / 86400 =? 0) = false) by (apply Z.eqb_neq; lia).
    rewrite Hz, !andb_false_r. reflexivity.
  - intros d Hd. unfold formatDuration.
    assert (H0 : (d * 86400 <=? 0) = false) by (apply Z.leb_gt; lia). rewrite H0.
    rewrite Z.div_mul by lia.
    assert (Hr1 : Z.rem (d * 86400) 86400 = 0) by (apply Z.rem_mul; lia).
    assert (Hr2 : Z.rem (d * 86400) 3600 = 0).
    { replace (d * 86400) with (d * 24 * 3600) by lia. apply Z.rem_mul; lia. }
    assert (Hr3 : Z.rem (d * 86400) 60 = 0).
    { replace (d * 86400) with (d * 1440 * 60) by lia. apply Z.rem_mul; lia. }
    rewrite Hr1, Hr2, Hr3.
    assert (Hpos : (d >? 0) = true) by (rewrite Z.gtb_ltb; apply Z.ltb_lt; lia).
    rewrite Hpos. cbn -[decimal_string String.eqb append].
    rewrite unit_text_not_empty by discriminate. reflexivity.
Qed.

Example formatDuration_examples :
  formatDuration 3661 = "1h 1m 1s" /\
  formatDuration 90061 = "1d 1h 1m" /\
  formatDuration 86459 = "1d".
Proof. repeat split. Qed.

(** X8. [shortenPublicKey] returns a text of at most [2 * chars + 3]
    characters unchanged; a longer one becomes its first [chars]
    characters, three dots and its last [chars] characters, which is
    [2 * chars + 3] characters long, when [chars] is at least 1.  With
    [chars = 0] the result is not shorter: it is the three dots followed
    by the whole text. *)
Theorem shortenPublicKey_shape (str : string) (chars : Z) :
  let len := Z.of_nat (String.length str) in
  (len <= 2 * chars + 3 -> shortenPublicKey str chars = str) /\
  (1 <= chars -> 2 * chars + 3 < len ->
     shortenPublicKey str chars
       = (substring 0 (Z.to_nat chars) str ++ "..."
          ++ substring (Z.to_nat (len - chars)) (Z.to_nat chars) str)%string /\
     Z.of_nat (String.length (shortenPublicKey str chars)) = 2 * chars + 3) /\
  (chars = 0 -> 3 < len -> shortenPublicKey str chars = ("..." ++ str)%string).
Proof.
  intros len. unfold shortenPublicKey. fold len. split; [|split].
  - intros H. replace (chars * 2 + 3) with (2 * chars + 3) by lia.
    apply Z.leb_le in H. rewrite H. reflexivity.
  - intros Hc Hlen.
    assert (Hgt : (len <=? chars * 2 + 3) = false) by (apply Z.leb_gt; lia).
    rewrite Hgt. unfold String_slice, slice_index. fold len.
    assert (H1 : (0 <? 0) = false) by reflexivity.
    assert (H2 : (chars <? 0) = false) by (apply Z.ltb_ge; lia).
    assert (H3 : (- chars <? 0) = true) by (apply Z.ltb_lt; lia).
    rewrite H1, H2, H3.
    rewrite (Z.min_l 0 len) by lia. rewrite (Z.min_l chars len) by lia.
    rewrite (Z.max_l (len + - chars) 0) by lia.
    rewrite (Z.max_l (chars - 0) 0) by lia.
    rewrite (Z.max_l (len - (len + - chars)) 0) by lia.
    replace (chars - 0) with chars by lia.
    replace (len - (len + - chars)) with chars by lia.
    replace (len + - chars) with (len - chars) by lia.
    change (Z.to_nat 0) with 0%nat.
    split; [reflexivity|].
    rewrite !length_append, !length_substring by (unfold len in *; lia).
    simpl String.length. lia.
  - intros -> Hlen.
    assert (Hgt : (len <=? 0 * 2 + 3) = false) by (apply Z.leb_gt; lia).
    rewrite Hgt.
    assert (Hhead : String_slice str 0 (Some 0) = "").
    { unfold String_slice, slice_index. fold len.
      change (0 <? 0) with false. cbv iota.
      rewrite (Z.min_l 0 len) by lia. simpl. destruct str; reflexivity. }
    assert (Htail : String_slice str (- 0) None = str).
    { unfold String_slice, slice_index. fold len.
      change (- 0 <? 0) with false. cbv iota. change (- 0) with 0.
      rewrite (Z.min_l 0 len) by lia.
      replace (Z.max (len - 0) 0) with len by lia.
      change (Z.to_nat 0) with 0%nat. unfold len. rewrite Nat2Z.id.
      apply substring_all. }
    rewrite Hhead, Htail. reflexivity.
Qed.

Example shortenPublicKey_examples :
  shortenPublicKey "ABCDEFGHIJKLMNOPQRSTUVWXYZ" 4 = "ABCD...WXYZ" /\
  shortenPublicKey "ABCDEFGHIJK" 4 = "ABCDEFGHIJK" /\
  shortenPublicKey "ABCDEFGHIJKL" 0 = "...ABCDEFGHIJKL".
Proof. repeat split. Qed.

End Texts.

(** ** Retrying a transaction lookup *)

Section RetryProperties.
Import Utils.
Variable Tx : Type.
Variable getTransaction : nat -> result (option Tx).

Lemma retry_from_not_found (failure : exn) (fuel i : nat) (waited : Z) :
  (forall k, (i <= k < i + fuel)%nat -> getTransaction k = Ok None) ->
  retry_from Tx getTransaction failure fuel i waited
    = (Throw failure, (i + fuel)%nat,
       waited + 500 * (Z.of_nat (i + fuel) * (Z.of_nat (i + fuel) + 1)
                       - Z.of_nat i * (Z.of_nat i + 1))).
Proof.
  revert i waited. induction fuel as [|fuel IH]; intros i waited Hnull;
    cbn [retry_from].
  - rewrite Nat.add_0_r. f_equal. nia.
  - rewrite (Hnull i) by lia. rewrite IH by (intros k Hk; apply Hnull; lia).
    replace (S i + fuel)%nat with (i + S fuel)%nat by lia. f_equal. nia.
Qed.

Lemma retry_from_found (failure : exn) (fuel i k : nat) (waited : Z) (tx : Tx) :
  (i <= k < i + fuel)%nat ->
  (forall j, (i <= j < k)%nat -> getTransaction j = Ok None) ->
  getTransaction k = Ok (Some tx) ->
  retry_from Tx getTransaction failure fuel i waited
    = (Ok tx, S k,
       waited + 500 * (Z.of_nat k * (Z.of_nat k + 1)
                       - Z.of_nat i * (Z.of_nat i + 1))).
Proof.
  revert i waited. induction fuel as [|fuel IH]; intros i waited Hk Hnull Hfound;
    [lia|]. cbn [retry_from].
  destruct (Nat.eq_dec i k) as [->|Hne].
  - rewrite Hfound. f_equal. nia.
  - rewrite (Hnull i) by lia.
    rewrite IH; [|lia|intros j Hj; apply Hnull; lia|exact Hfound].
    f_equal. nia.
Qed.

(** X9. [getTransactionWithRetry] asks the connection at most [maxRetries]
    times and returns the first transaction it is given.  Found at the
    call number [k] (from 0), it has waited 1000 + 2000 + ... + 1000 k
    milliseconds before; never found, it has waited after each of the
    [maxRetries] calls, the last one included, before it throws; with
    [maxRetries] of 0 or less it throws without asking at all. *)
Theorem getTransactionWithRetry_attempts (signature : string) (maxRetries : Z) :
  let failure :=
    LibraryError ("Transaction " ++ signature ++ " not found after "
                  ++ decimal_string maxRetries ++ " retries")%string in
  (maxRetries <= 0 ->
     getTransactionWithRetry Tx getTransaction signature maxRetries
       = (Throw failure, 0%nat, 0)) /\
  (forall k tx,
     0 <= Z.of_nat k < maxRetries ->
     (forall j, (j < k)%nat -> getTransaction j = Ok None) ->
     getTransaction k = Ok (Some tx) ->
     getTransactionWithRetry Tx getTransaction signature maxRetries
       = (Ok tx, S k, 500 * (Z.of_nat k * (Z.of_nat k + 1)))) /\
  ((forall j, Z.of_nat j < maxRetries -> getTransaction j = Ok None) ->
     0 <= maxRetries ->
     getTransactionWithRetry Tx getTransaction signature maxRetries
       = (Throw failure, Z.to_nat maxRetries,
          500 * (maxRetries * (maxRetries + 1)))).
Proof.
  intros failure. unfold getTransactionWithRetry. fold failure.
  split; [|split].
  - intros H. replace (Z.to_nat maxRetries) with 0%nat by lia. reflexivity.
  - intros k tx Hk Hnull Hfound.
    rewrite (retry_from_found failure _ 0 k 0 tx);
      [f_equal; nia|lia|intros j Hj; apply Hnull; lia|exact Hfound].
  - intros Hnull Hpos.
    rewrite retry_from_not_found by (intros k Hk; apply Hnull; lia).
    simpl (0 + _)%nat. rewrite Z2Nat.id by lia. f_equal. nia.
Qed.

End RetryProperties.

Example getTransactionWithRetry_third_call :
  Utils.getTransactionWithRetry nat
    (fun k => Ok (if Nat.eqb k 2 then Some 7%nat else None)) "sig" 3
  = (Ok 7%nat, 3%nat, 3000).
Proof. reflexivity. Qed.

Example getTransactionWithRetry_never :
  Utils.getTransactionWithRetry nat (fun _ => Ok None) "sig" 3
  = (Throw (LibraryError "Transaction sig not found after 3 retries"), 3%nat, 6000).
Proof. reflexivity. Qed.

(** ** Events *)

Section EventProperties.
Import Events.
Variable Data : Type.

Lemma find_is_head_of_filter {A : Type} (f : A -> bool) (l : list A) :
  find f l = hd_error (filter f l).
Proof.
  induction l as [|x l IH]; simpl; [reflexivity|].
  destruct (f x); [reflexivity|exact IH].
Qed.

(** X10. [findEvent] returns the first element of [filterEventsByName]:
    the earliest event of that name, and nothing exactly when no event
    bears the name.  [filterEventsByName] keeps the events of that name,
    all of them and only them, in their order. *)
Theorem findEvent_first_of_filter (events : list (RaiseEvent Data)) (wanted : string) :
  findEvent Data events wanted = hd_error (filterEventsByName Data events wanted) /\
  (findEvent Data events wanted = None <->
     forall e, In e events -> name Data e <> wanted) /\
  (forall e, In e (filterEventsByName Data events wanted) <->
             In e events /\ name Data e = wanted) /\
  (forall before e after,
     events = before ++ e :: after ->
     name Data e = wanted ->
     (forall b, In b before -> name Data b <> wanted) ->
     findEvent Data events wanted = Some e).
Proof.
  unfold findEvent, filterEventsByName. split; [apply find_is_head_of_filter|].
  split; [|split].
  - split.
    + intros Hnone e He Hname.
      pose proof (find_none _ _ Hnone e He) as Hf. simpl in Hf.
      rewrite Hname, String.eqb_refl in Hf. discriminate.
    + intros Hall. destruct (find _ events) as [e|] eqn:Hf; [exfalso|reflexivity].
      apply find_some in Hf as [He Hname]. apply String.eqb_eq in Hname.
      exact (Hall e He Hname).
  - intros e. rewrite filter_In, String.eqb_eq. reflexivity.
  - intros before e after -> Hname Hbefore.
    induction before as [|b before IH]; simpl.
    + rewrite Hname, String.eqb_refl. reflexivity.
    + assert (Hb : String.eqb (name Data b) wanted = false).
      { apply String.eqb_neq. apply Hbefore. left. reflexivity. }
      rewrite Hb. apply IH. intros b' Hb'. apply Hbefore. right. exact Hb'.
Qed.

End EventProperties.

(** ** Names, codes and messages of the errors *)

Section ErrorMessages.
Import Errors.

Lemma error_names_distinct : NoDup (map entry_name ERROR_CODES).
Proof.
  assert (H : nodup string_dec (map entry_name ERROR_CODES)
              = map entry_name ERROR_CODES) by (vm_compute; reflexivity).
  rewrite <- H. apply NoDup_nodup.
Qed.

Lemma error_codes_distinct : NoDup (map entry_code ERROR_CODES).
Proof.
  assert (H : nodup Z.eq_dec (map entry_code ERROR_CODES)
              = map entry_code ERROR_CODES) by (vm_compute; reflexivity).
  rewrite <- H. apply NoDup_nodup.
Qed.

Lemma every_code_has_a_message_b :
  forallb (fun e =>
             (code_of (entry_name e) =? entry_code e) &&
             match message_of (entry_code e) with
             | Some m => negb (String.eqb m "")
             | None => false
             end) ERROR_CODES = true.
Proof. vm_compute. reflexivity. Qed.

Lemma code_of_entry (e : Category * string * Z) :
  In e ERROR_CODES -> code_of (entry_name e) = entry_code e.
Proof.
  intros He. pose proof every_code_has_a_message_b as Hall.
  rewrite forallb_forall in Hall. specialize (Hall e He).
  apply andb_true_iff in Hall as [Hcode _]. apply Z.eqb_eq in Hcode. exact Hcode.
Qed.

(** X11. No two errors share a name or a code, and every code of
    [ERROR_CODES] has a message of its own in [ERROR_MESSAGES], which is
    not empty: for a rejection with such a code [fromAnchorError] always
    gives that message, whatever message the ledger sent. *)
Theorem every_error_code_has_its_message :
  NoDup (map entry_name ERROR_CODES) /\
  NoDup (map entry_code ERROR_CODES) /\
  List.length ERROR_MESSAGES = List.length ERROR_CODES /\
  (forall e, In e ERROR_CODES ->
     code_of (entry_name e) = entry_code e /\
     exists m,
       message_of (entry_code e) = Some m /\ m <> "" /\
       forall ledgerMessage,
         fromAnchorError (entry_code e) ledgerMessage
           = {| code := entry_code e; message := m |}).
Proof.
  split; [exact error_names_distinct|]. split; [exact error_codes_distinct|].
  split; [reflexivity|].
  intros e He. pose proof every_code_has_a_message_b as Hall.
  rewrite forallb_forall in Hall. specialize (Hall e He).
  apply andb_true_iff in Hall as [Hcode Hmsg]. apply Z.eqb_eq in Hcode.
  split; [exact Hcode|].
  destruct (message_of (entry_code e)) as [m|] eqn:Hm; [|discriminate].
  exists m. split; [reflexivity|].
  apply negb_true_iff in Hmsg. split.
  - intros ->. discriminate.
  - intros ledgerMessage. unfold fromAnchorError. rewrite Hm, Hmsg. reflexivity.
Qed.

(** X12. [parseError] always returns an [Error], and parsing twice changes
    nothing more.  For every thrown [Error] the text of [getErrorMessage]
    is the message of what [parseError] returns; for a thrown value that
    is no [Error] the two differ: [parseError] keeps the text of the value,
    [getErrorMessage] says 'An unknown error occurred'. *)
Theorem getErrorMessage_agrees_with_parseError (error : Thrown) :
  parseThrown (parseThrown error) = parseThrown error /\
  (exists m, carried_message (parseThrown error) = Some m) /\
  (carried_message error <> None ->
     carried_message (parseThrown error) = Some (getErrorMessage error)) /\
  (forall text,
     error = ThrownValue text ->
     carried_message (parseThrown error) = Some text /\
     getErrorMessage error = "An unknown error occurred").
Proof.
  destruct error as [e|e|value].
  - simpl. repeat split; eauto; intros; discriminate.
  - destruct e; simpl; repeat split; eauto; intros; discriminate.
  - simpl. split; [reflexivity|]. split; [eauto|]. split.
    + intros H. contradiction H. reflexivity.
    + intros text [= <-]. split; reflexivity.
Qed.

Lemma entry_of_code (e1 e2 : Category * string * Z) :
  In e1 ERROR_CODES -> In e2 ERROR_CODES ->
  entry_code e1 = entry_code e2 -> e1 = e2.
Proof.
  intros H1 H2 Hc. pose proof error_codes_distinct as Hnd.
  apply In_nth_error in H1 as [i Hi]. apply In_nth_error in H2 as [j Hj].
  assert (Hij : i = j).
  { apply (proj1 (NoDup_nth_error _) Hnd).
    - rewrite length_map. apply nth_error_Some. congruence.
    - rewrite !nth_error_map, Hi, Hj. simpl. congruence. }
  subst j. congruence.
Qed.

(** X13. A rejection by the ledger, once through [parseError], is a
    [RaiseError] with the ledger's code: [isRaiseError] with a code answers
    whether it is that code, and with the code of a name of [ERROR_CODES]
    whether the rejection is the error of that name and of no other.  Any
    other error is never a [RaiseError]. *)
Theorem isRaiseError_after_parseError :
  (forall c m text c',
     isRaiseError (parseThrown (ThrownError (AnchorError c m text))) (Some c')
       = (c =? c') /\
     isRaiseError (parseThrown (ThrownError (AnchorError c m text))) None = true) /\
  (forall e1 e2 m text,
     In e1 ERROR_CODES -> In e2 ERROR_CODES ->
     (isRaiseError (parseThrown (ThrownError (AnchorError (entry_code e1) m text)))
                   (Some (code_of (entry_name e2))) = true
      <-> e1 = e2)) /\
  (forall e c,
     (forall code m text, e <> AnchorError code m text) ->
     isRaiseError (parseThrown (ThrownError e)) c = false) /\
  (forall text c, isRaiseError (parseThrown (ThrownValue text)) c = false).
Proof.
  split; [|split; [|split]].
  - intros c m text c'. split; reflexivity.
  - intros e1 e2 m text H1 H2. simpl.
    rewrite (code_of_entry e2 H2), Z.eqb_eq. split.
    + apply entry_of_code; assumption.
    + intros ->. reflexivity.
  - intros e c Hne. destruct e; try reflexivity.
    exfalso. exact (Hne _ _ _ eq_refl).
  - reflexivity.
Qed.

End ErrorMessages.

(** ** More on deadlines *)

Section MoreDeadlines.
Import Instructions.

Lemma clock_seconds_bound (Date_now : Z) :
  Z.abs Date_now <= 8640000000000000 ->
  -8640000000000 <= Date_now / 1000 <= 8640000000000.
Proof.
  intros H. split.
  - apply Z.div_le_lower_bound; lia.
  - apply Z.div_le_upper_bound; lia.
Qed.

Lemma min_duration_bounds (isDev : bool) : 60 <= min_duration isDev <= 604800.
Proof. destruct isDev; cbv; split; discriminate. Qed.

(** X14. [minDeadline] is one second after the earliest deadline that
    [validateDeadline] accepts, and is accepted itself at the same clock
    reading and in the same mode; one second less than the earliest
    deadline is refused. *)
Theorem minDeadline_is_valid (Date_now : Z) (isDev : bool) :
  Z.abs Date_now <= 8640000000000000 ->
  let earliest := Date_now / 1000 + min_duration isDev in
  minDeadline Date_now isDev = Ok (earliest + 1) /\
  validateDeadline Date_now (earliest + 1) isDev
    = Ok {| valid := true; error := None |} /\
  validateDeadline Date_now earliest isDev
    = Ok {| valid := true; error := None |} /\
  validateDeadline Date_now (earliest - 1) isDev
    = Ok {| valid := false; error := Some (too_soon_message isDev) |}.
Proof.
  intros Hclock earliest.
  pose proof (clock_seconds_bound _ Hclock) as Hnow.
  pose proof (min_duration_bounds isDev) as Hmin.
  assert (Hsafe : forall d, earliest - 1 <= d <= earliest + 1 -> Z.abs d < 2 ^ 53).
  { intros d Hd. change (2 ^ 53) with 9007199254740992. unfold earliest in Hd. lia. }
  split; [|split; [|split]].
  - unfold minDeadline. fold (min_duration isDev). fold earliest.
    apply BN_of_number_ok, Hsafe. lia.
  - rewrite validateDeadline_cases by (apply Hsafe; lia). fold earliest.
    assert (H1 : (earliest + 1 <? earliest) = false) by (apply Z.ltb_ge; lia).
    rewrite H1, Z.gtb_ltb.
    assert (H2 : (Date_now / 1000 + MAX_DEADLINE_DURATION_SECONDS <? earliest + 1) = false).
    { apply Z.ltb_ge. unfold earliest, MAX_DEADLINE_DURATION_SECONDS. lia. }
    rewrite H2. reflexivity.
  - rewrite validateDeadline_cases by (apply Hsafe; lia). fold earliest.
    rewrite Z.ltb_irrefl, Z.gtb_ltb.
    assert (H2 : (Date_now / 1000 + MAX_DEADLINE_DURATION_SECONDS <? earliest) = false).
    { apply Z.ltb_ge. unfold earliest, MAX_DEADLINE_DURATION_SECONDS. lia. }
    rewrite H2. reflexivity.
  - rewrite validateDeadline_cases by (apply Hsafe; lia). fold earliest.
    assert (H1 : (earliest - 1 <? earliest) = true) by (apply Z.ltb_lt; lia).
    rewrite H1. reflexivity.
Qed.

Lemma minDeadline_is_valid_witness :
  Z.abs 1700000000000 <= 8640000000000000 /\
  minDeadline 1700000000000 false = Ok (1700000000 + 604800 + 1).
Proof.
  assert (H : Z.abs 1700000000000 <= 8640000000000000) by (vm_compute; discriminate).
  split; [exact H|].
  exact (proj1 (minDeadline_is_valid 1700000000000 false H)).
Defined.

(** X15. Between the minimum duration and one year [calculateDeadline]
    returns the current second plus the days asked, 86400 seconds each
    (in production, from 7 to 365 days); and it never returns an earlier
    deadline for more days. *)
Theorem calculateDeadline_exact_and_monotone (Date_now days days' : Z) (isDev : bool) :
  Z.abs Date_now <= 8640000000000000 ->
  (min_duration isDev <= days * 86400 <= MAX_DEADLINE_DURATION_SECONDS ->
     calculateDeadline Date_now days isDev = Ok (Date_now / 1000 + days * 86400)) /\
  (isDev = false -> 7 <= days <= 365 ->
     calculateDeadline Date_now days isDev = Ok (Date_now / 1000 + days * 86400)) /\
  (days <= days' ->
     exists d d',
       calculateDeadline Date_now days isDev = Ok d /\
       calculateDeadline Date_now days' isDev = Ok d' /\
       d <= d').
Proof.
  intros Hclock.
  pose proof (clock_seconds_bound _ Hclock) as Hnow.
  pose proof (min_duration_bounds isDev) as Hmin.
  assert (Hcalc : forall n,
            calculateDeadline Date_now n isDev
              = Ok (Z.min (Date_now / 1000 + Z.max (n * 24 * 60 * 60) (min_duration isDev))
                          (Date_now / 1000 + MAX_DEADLINE_DURATION_SECONDS))).
  { intros n. unfold calculateDeadline. fold (min_duration isDev).
    apply BN_of_number_ok. change (2 ^ 53) with 9007199254740992.
    unfold MAX_DEADLINE_DURATION_SECONDS. lia. }
  split; [|split].
  - intros Hrange. rewrite Hcalc. f_equal.
    unfold MAX_DEADLINE_DURATION_SECONDS in *. lia.
  - intros -> Hdays. rewrite Hcalc. f_equal.
    unfold MAX_DEADLINE_DURATION_SECONDS, min_duration,
      MIN_DEADLINE_DURATION_SECONDS_PROD in *. lia.
  - intros Hle. eexists. eexists. split; [apply Hcalc|]. split; [apply Hcalc|].
    lia.
Qed.

Lemma calculateDeadline_exact_and_monotone_witness :
  Z.abs 1700000000000 <= 8640000000000000 /\
  calculateDeadline 1700000000000 30 false = Ok (1700000000 + 30 * 86400).
Proof.
  assert (H : Z.abs 1700000000000 <= 8640000000000000) by (vm_compute; discriminate).
  split; [exact H|].
  exact (proj1 (proj2 (calculateDeadline_exact_and_monotone
                         1700000000000 30 30 false H)) eq_refl ltac:(lia)).
Defined.

(** X16. A deadline that [validateDeadline] accepts in production mode is
    accepted in development mode at the same clock reading; the converse
    fails for a deadline less than 7 days ahead. *)
Theorem production_deadline_valid_in_development (Date_now deadline : Z) :
  validateDeadline Date_now deadline false = Ok {| valid := true; error := None |} ->
  validateDeadline Date_now deadline true = Ok {| valid := true; error := None |}.
Proof.
  unfold validateDeadline. destruct (BN_toNumber deadline) as [d|e]; simpl;
    [|discriminate].
  unfold MIN_DEADLINE_DURATION_SECONDS_PROD, MIN_DEADLINE_DURATION_SECONDS_DEV.
  destruct (d <? Date_now / 1000 + 604800) eqn:Hp; [discriminate|].
  apply Z.ltb_ge in Hp.
  assert (Hd : (d <? Date_now / 1000 + 60) = false) by (apply Z.ltb_ge; lia).
  rewrite Hd. destruct (d >? _); [discriminate|reflexivity].
Qed.

Lemma production_deadline_valid_in_development_witness :
  validateDeadline 1700000000000 1700700000 false
    = Ok {| valid := true; error := None |} /\
  validateDeadline 1700000000000 1700700000 true
    = Ok {| valid := true; error := None |}.
Proof.
  assert (H : validateDeadline 1700000000000 1700700000 false
              = Ok {| valid := true; error := None |}) by reflexivity.
  split; [exact H|].
  exact (production_deadline_valid_in_development 1700000000000 1700700000 H).
Defined.

Example development_deadline_invalid_in_production :
  validateDeadline 1700000000000 1700000100 true
    = Ok {| valid := true; error := None |} /\
  validateDeadline 1700000000000 1700000100 false
    = Ok {| valid := false; error := Some "Deadline must be at least 7 days from now" |}.
Proof. split; reflexivity. Qed.

End MoreDeadlines.

(** ** Shares of an amount *)

Section Shares.
Import Utils.

Lemma whole_percentage_exact_all :
  forallb whole_percentage_exact (seq 0 (Z.to_nat 101)) = true.
Proof. vm_compute. reflexivity. Qed.

Lemma percentageOf_whole (amt p : Z) :
  0 <= p <= 100 ->
  percentageOf amt (number_of_Z p) = Ok (Z.quot (amt * (100 * p)) 10000).
Proof.
  intros Hp. pose proof whole_percentage_exact_all as Hall.
  rewrite forallb_forall in Hall.
  specialize (Hall (Z.to_nat p) ltac:(apply in_seq; lia)).
  unfold whole_percentage_exact in Hall. rewrite Z2Nat.id in Hall by lia.
  unfold percentageOf.
  destruct (BigInt _) as [k|e]; [|discriminate].
  apply Z.eqb_eq in Hall. subst k. reflexivity.
Qed.

Lemma share_bounds (amt p : Z) :
  0 <= amt -> 0 <= p ->
  let q := Z.quot (amt * (100 * p)) 10000 in
  100 * q <= amt * p < 100 * q + 100.
Proof.
  intros Ha Hp q. unfold q.
  rewrite Z.quot_div_nonneg by nia.
  replace (amt * (100 * p)) with (amt * p * 100) by lia.
  replace 10000 with (100 * 100) by reflexivity.
  rewrite Z.div_mul_cancel_r by lia.
  pose proof (Z.div_mod (amt * p) 100 ltac:(lia)).
  pose proof (Z.mod_pos_bound (amt * p) 100 ltac:(lia)). lia.
Qed.

(** X17. For a non-negative amount and whole percentages from 0 to 100
    that pass [validateMilestonePercentages], the shares that
    [percentageOf] computes never add up to more than the amount, and fall
    short of it by less than one unit for each percentage. *)
Theorem milestone_shares_never_exceed_amount (amt : Z) (percentages : list Z) :
  0 <= amt ->
  Forall (fun p => 0 <= p <= 100) percentages ->
  validateMilestonePercentages percentages = true ->
  exists shares,
    Forall2 (fun p share => percentageOf amt (number_of_Z p) = Ok share)
            percentages shares /\
    sum_of shares <= amt /\
    amt - sum_of shares < Z.of_nat (List.length percentages).
Proof.
  intros Ha Hall Hvalid.
  exists (map (fun p => Z.quot (amt * (100 * p)) 10000) percentages).
  assert (Hsum : sum_of percentages = 100).
  { unfold validateMilestonePercentages in Hvalid.
    rewrite reduce_add_from in Hvalid. apply Z.eqb_eq in Hvalid. lia. }
  assert (Hinv :
            100 * sum_of (map (fun p => Z.quot (amt * (100 * p)) 10000) percentages)
              <= amt * sum_of percentages
              <= 100 * sum_of (map (fun p => Z.quot (amt * (100 * p)) 10000) percentages)
                 + 99 * Z.of_nat (List.length percentages)).
  { clear Hvalid Hsum. induction Hall as [|p ps Hp Hps IH].
    - cbn. lia.
    - pose proof (share_bounds amt p Ha (proj1 Hp)) as Hb. cbv zeta in Hb.
      change (sum_of (p :: ps)) with (p + sum_of ps).
      change (sum_of (map (fun p => Z.quot (amt * (100 * p)) 10000) (p :: ps)))
        with (Z.quot (amt * (100 * p)) 10000
              + sum_of (map (fun p => Z.quot (amt * (100 * p)) 10000) ps)).
      change (List.length (p :: ps)) with (S (List.length ps)).
      rewrite Z.mul_add_distr_l, Nat2Z.inj_succ. lia. }
  split; [|split].
  - clear Hinv Hsum Hvalid. induction Hall as [|p ps Hp Hps IH]; simpl;
      constructor; [apply percentageOf_whole, Hp|exact IH].
  - destruct Hinv as [Hle _]. rewrite Hsum in Hle. lia.
  - destruct Hinv as [_ Hlt]. rewrite Hsum in Hlt.
    destruct percentages as [|p ps]; [discriminate Hsum|].
    change (List.length (p :: ps)) with (S (List.length ps)) in *.
    rewrite Nat2Z.inj_succ in *. lia.
Qed.

Lemma milestone_shares_never_exceed_amount_witness :
  0 <= 1000 /\
  Forall (fun p => 0 <= p <= 100) [33; 33; 34] /\
  validateMilestonePercentages [33; 33; 34] = true /\
  exists shares,
    Forall2 (fun p share => percentageOf 1000 (number_of_Z p) = Ok share)
            [33; 33; 34] shares /\
    sum_of shares <= 1000.
Proof.
  assert (Ha : 0 <= 1000) by lia.
  assert (Hall : Forall (fun p => 0 <= p <= 100) [33; 33; 34])
    by (repeat constructor; lia).
  assert (Hv : validateMilestonePercentages [33; 33; 34] = true) by reflexivity.
  split; [exact Ha|]. split; [exact Hall|]. split; [exact Hv|].
  destruct (milestone_shares_never_exceed_amount 1000 [33; 33; 34] Ha Hall Hv)
    as (shares & Hshares & Hle & _).
  exists shares. split; assumption.
Defined.

Lemma bps_back_within_one_all :
  forallb bps_back_within_one (seq 0 (Z.to_nat 10001)) = true.
Proof. vm_compute. reflexivity. Qed.

(** X18. Turning a whole number [k] of basis points, from 0 to 10000, into
    a percentage and back with [percentToBps] gives [k] or [k - 1], never
    more; it is not always [k]: 3 basis points come back as 2. *)
Theorem percentToBps_after_bpsToPercent :
  (forall k, 0 <= k <= 10000 ->
     exists r,
       BigInt (percentToBps (bpsToPercent (number_of_Z k))) = Ok r /\
       k - 1 <= r <= k)
  /\ percentToBps (bpsToPercent 3) = 2%float.
Proof.
  split; [|vm_compute; reflexivity].
  intros k Hk. pose proof bps_back_within_one_all as Hall.
  rewrite forallb_forall in Hall.
  specialize (Hall (Z.to_nat k) ltac:(apply in_seq; lia)).
  unfold bps_back_within_one in Hall. rewrite Z2Nat.id in Hall by lia.
  destruct (BigInt _) as [r|e]; [|discriminate].
  exists r. split; [reflexivity|].
  apply andb_true_iff in Hall as [H1 H2].
  apply Z.leb_le in H1, H2. lia.
Qed.

End Shares.

(** ** Token symbols *)

Section Symbols.
Import Instructions.

Lemma array_set_app (pre post : list Z) (v0 v : Z) :
  array_set (pre ++ v0 :: post) (List.length pre) v = pre ++ v :: post.
Proof. induction pre as [|b pre IH]; simpl; [reflexivity|]. rewrite IH. reflexivity. Qed.

Lemma symbol_fill_app (chars : string) (pre mid post : list Z) :
  List.length mid = String.length chars ->
  symbol_fill chars (List.length pre) (pre ++ mid ++ post) =
  pre ++ char_codes chars ++ post.
Proof.
  revert pre mid. induction chars as [|c chars IH]; intros pre mid Hlen.
  - destruct mid; [reflexivity|discriminate Hlen].
  - destruct mid as [|m mid]; [discriminate Hlen|].
    cbn [symbol_fill]. change ((m :: mid) ++ post) with (m :: mid ++ post).
    rewrite array_set_app.
    replace (S (List.length pre))
      with (List.length (pre ++ [Z.of_nat (nat_of_ascii c)]))
      by (rewrite length_app; simpl; lia).
    change (pre ++ Z.of_nat (nat_of_ascii c) :: mid ++ post)
      with (pre ++ [Z.of_nat (nat_of_ascii c)] ++ mid ++ post).
    rewrite app_assoc, IH by (simpl in Hlen; lia).
    rewrite <- app_assoc. reflexivity.
Qed.

Lemma slice_first (s : string) (n : nat) :
  String_slice s 0 (Some (Z.of_nat n)) = substring 0 n s.
Proof.
  unfold String_slice, slice_index. cbn [Z.ltb Z.compare].
  destruct (Z.of_nat n <? 0) eqn:Hn; [apply Z.ltb_lt in Hn; lia|].
  rewrite Z.min_l by lia. cbn [Z.to_nat].
  destruct (Nat.le_gt_cases n (String.length s)) as [Hle|Hgt].
  - rewrite Z.min_l, Z.sub_0_r, Z.max_l, Nat2Z.id by lia. reflexivity.
  - rewrite Z.min_r, Z.sub_0_r, Z.max_l, Nat2Z.id by lia.
    clear Hn. revert n Hgt. induction s as [|c s IH]; intros n Hgt.
    + destruct n; reflexivity.
    + destruct n as [|n]; [simpl in Hgt; lia|].
      cbn [String.length substring]. f_equal. apply IH. simpl in Hgt. lia.
Qed.

Lemma char_codes_substring (s : string) (n : nat) :
  char_codes (substring 0 n s) = firstn n (char_codes s).
Proof.
  revert n. induction s as [|c s IH]; intros [|n]; try reflexivity.
  cbn [substring]. unfold char_codes in *.
  cbn [list_ascii_of_string map firstn]. f_equal. apply IH.
Qed.

Lemma length_char_codes (s : string) :
  List.length (char_codes s) = String.length s.
Proof.
  unfold char_codes. rewrite length_map.
  induction s as [|c s IH]; simpl; [reflexivity|]. rewrite IH. reflexivity.
Qed.

Lemma length_toUpperCase (s : string) :
  String.length (toUpperCase s) = String.length s.
Proof. induction s as [|c s IH]; simpl; [reflexivity|]. rewrite IH. reflexivity. Qed.

Lemma length_substring_first (s : string) (n : nat) :
  String.length (substring 0 n s) = Nat.min n (String.length s).
Proof.
  revert n. induction s as [|c s IH]; intros [|n]; try reflexivity.
  cbn [substring String.length]. rewrite IH. reflexivity.
Qed.

Lemma symbolToBytes_codes (symbol : string) :
  symbolToBytes symbol =
  firstn 8 (char_codes (toUpperCase symbol))
  ++ repeat 0 (8 - String.length symbol).
Proof.
  unfold symbolToBytes. cbv zeta.
  change 8 with (Z.of_nat 8) at 1. rewrite slice_first.
  set (chars := substring 0 8 (toUpperCase symbol)).
  assert (Hchars : String.length chars = Nat.min 8 (String.length symbol)).
  { unfold chars. rewrite length_substring_first, length_toUpperCase. reflexivity. }
  replace (repeat 0 8)
    with ([] ++ repeat 0 (String.length chars)
             ++ repeat 0 (8 - String.length symbol)).
  2:{ cbn [app]. rewrite <- repeat_app. f_equal. lia. }
  change 0%nat with (@List.length Z []) at 1.
  rewrite symbol_fill_app by apply repeat_length.
  cbn [app]. unfold chars. rewrite char_codes_substring. reflexivity.
Qed.

Lemma upper_ascii_idempotent_b :
  forallb (fun n => Ascii.eqb (upper_ascii (upper_ascii (ascii_of_nat n)))
                              (upper_ascii (ascii_of_nat n)))
          (seq 0 256) = true.
Proof. vm_compute. reflexivity. Qed.

Lemma upper_ascii_idempotent (c : ascii) :
  upper_ascii (upper_ascii c) = upper_ascii c.
Proof.
  pose proof upper_ascii_idempotent_b as Hall. rewrite forallb_forall in Hall.
  specialize (Hall (nat_of_ascii c)
                   ltac:(apply in_seq; pose proof (nat_ascii_bounded c); lia)).
  rewrite ascii_nat_embedding in Hall. apply Ascii.eqb_eq, Hall.
Qed.

Lemma toUpperCase_idempotent (s : string) :
  toUpperCase (toUpperCase s) = toUpperCase s.
Proof.
  induction s as [|c s IH]; simpl; [reflexivity|].
  rewrite upper_ascii_idempotent, IH. reflexivity.
Qed.

Lemma toUpperCase_append (a b : string) :
  toUpperCase (a ++ b) = (toUpperCase a ++ toUpperCase b)%string.
Proof. induction a as [|c a IH]; simpl; [reflexivity|]. rewrite IH. reflexivity. Qed.

Lemma char_codes_append (a b : string) :
  char_codes (a ++ b) = char_codes a ++ char_codes b.
Proof.
  unfold char_codes. induction a as [|c a IH]; simpl; [reflexivity|].
  rewrite IH. reflexivity.
Qed.

(** X19. On an ASCII symbol [symbolToBytes] always answers eight numbers:
    the codes of the first eight characters of the upper-cased symbol,
    then zeros.  So it does not tell a symbol from its upper-case form,
    and it does not see what follows the eighth character: two symbols
    that agree on their first eight characters get the same bytes, and
    no symbol is rejected for its length. *)
Theorem symbolToBytes_eight_upper_case_codes (symbol : string) :
  is_ascii symbol = true ->
  List.length (symbolToBytes symbol) = 8%nat /\
  symbolToBytes symbol =
    firstn 8 (char_codes (toUpperCase symbol))
    ++ repeat 0 (8 - String.length symbol) /\
  symbolToBytes (toUpperCase symbol) = symbolToBytes symbol /\
  (forall rest, is_ascii rest = true ->
     (8 <= String.length symbol)%nat ->
     symbolToBytes (symbol ++ rest) = symbolToBytes symbol).
Proof.
  intros _. split; [|split; [|split]].
  - rewrite symbolToBytes_codes, length_app, repeat_length, length_firstn.
    rewrite length_char_codes, length_toUpperCase. lia.
  - apply symbolToBytes_codes.
  - rewrite !symbolToBytes_codes, toUpperCase_idempotent, length_toUpperCase.
    reflexivity.
  - intros rest _ Hlen. rewrite !symbolToBytes_codes.
    rewrite toUpperCase_append, char_codes_append, length_append.
    rewrite firstn_app, length_char_codes, length_toUpperCase.
    replace (8 - String.length symbol)%nat with 0%nat by lia.
    replace (8 - (String.length symbol + String.length rest))%nat
      with 0%nat by lia.
    cbn [firstn repeat]. rewrite !app_nil_r. reflexivity.
Qed.

Lemma symbolToBytes_eight_upper_case_codes_witness :
  is_ascii "usdc" = true /\
  symbolToBytes "usdc" = [85; 83; 68; 67; 0; 0; 0; 0] /\
  symbolToBytes "USDC" = symbolToBytes "usdc".
Proof.
  assert (Hascii : is_ascii "usdc" = true) by reflexivity.
  split; [exact Hascii|].
  destruct (symbolToBytes_eight_upper_case_codes "usdc" Hascii)
    as (_ & Hcodes & Hupper & _).
  split; [rewrite Hcodes; reflexivity|exact Hupper].
Defined.

End Symbols.

(** ** Addresses of distinct entities *)

Section DistinctAddresses.
Context {W : Web3}.
Import Constants Pdas Instructions.

Lemma nested_or_different (s1 s2 : string) (x y : Buffer) :
  Buffer_from_string s1 ++ x = Buffer_from_string s2 ++ y ->
  String.prefix s1 s2 = true \/ String.prefix s2 s1 = true.
Proof.
  unfold Buffer_from_string. revert s2.
  induction s1 as [|c1 s1 IH]; intros [|c2 s2] H; cbn [String.prefix];
    [left; reflexivity|left; reflexivity|right; reflexivity|].
  cbn [list_byte_of_string list_ascii_of_string map app] in H.
  injection H as Hc Hrest.
  assert (Heq : c1 = c2).
  { rewrite <- (ascii_of_byte_of_ascii c1), <- (ascii_of_byte_of_ascii c2), Hc.
    reflexivity. }
  subst c2. destruct (ascii_dec c1 c1) as [_|Hne]; [|contradiction].
  apply IH, Hrest.
Qed.

Lemma same_length_same_prefix (s1 s2 : string) (x y : Buffer) :
  List.length x = List.length y ->
  Buffer_from_string s1 ++ x = Buffer_from_string s2 ++ y ->
  s1 = s2.
Proof.
  intros Hlen H. apply Buffer_from_string_inj.
  assert (Hl : List.length (Buffer_from_string s1)
               = List.length (Buffer_from_string s2)).
  { apply (f_equal (@List.length _)) in H. rewrite !length_app in H. lia. }
  apply (f_equal (firstn (List.length (Buffer_from_string s1)))) in H.
  rewrite firstn_app, firstn_all, Nat.sub_diag in H.
  rewrite Hl, firstn_app, firstn_all, Nat.sub_diag in H.
  cbn [firstn] in H. rewrite !app_nil_r in H. exact H.
Qed.

Lemma nesting_kinds (k1 k2 : EntityKind) :
  k1 <> k2 -> prefixes_nest k1 k2 = true ->
  (k1 = KTgeEscrow /\ k2 = KTgeEscrowVault) \/
  (k1 = KTgeEscrowVault /\ k2 = KTgeEscrow).
Proof.
  intros Hne H.
  destruct k1, k2; try (contradiction Hne; reflexivity);
    try (vm_compute in H; discriminate H);
    [left|right]; split; reflexivity.
Qed.

(** X20. With a collision-free hash two distinct entity kinds never derive
    the same address, whatever the seeds that follow the prefix, unless
    the prefix of one begins with the prefix of the other; the only such
    pair is 'tge_escrow' and 'tge_escrow_vault', and there the addresses
    differ as soon as the seeds that follow have the same total length, as
    the one account key that both take has. *)
Theorem kinds_never_collide_on_any_seeds :
  collision_free W ->
  (forall k1 k2 raw1 raw2 programId a b,
     k1 <> k2 ->
     (prefixes_nest k1 k2 = true ->
      List.length (List.concat raw1) = List.length (List.concat raw2)) ->
     derive k1 raw1 programId = Ok a ->
     derive k2 raw2 programId = Ok b ->
     a <> b)
  /\
  (forall k1 k2,
     k1 <> k2 -> prefixes_nest k1 k2 = true ->
     (k1 = KTgeEscrow /\ k2 = KTgeEscrowVault) \/
     (k1 = KTgeEscrowVault /\ k2 = KTgeEscrow))
  /\
  (forall projectPda projectPda' programId a b,
     List.length (toBuffer projectPda) = List.length (toBuffer projectPda') ->
     getTgeEscrowPDA projectPda programId = Ok a ->
     getTgeEscrowVaultPDA projectPda' programId = Ok b ->
     a <> b).
Proof.
  intros Hfree.
  assert (Hgen : forall k1 k2 raw1 raw2 programId a b,
     k1 <> k2 ->
     (prefixes_nest k1 k2 = true ->
      List.length (List.concat raw1) = List.length (List.concat raw2)) ->
     derive k1 raw1 programId = Ok a ->
     derive k2 raw2 programId = Ok b ->
     a <> b).
  { intros k1 k2 raw1 raw2 programId a b Hne Hlen Ha Hb Heq.
    apply pda_of_Ok in Ha as [ba Ha]. apply pda_of_Ok in Hb as [bb Hb].
    pose proof (Hfree _ _ _ _ _ _ _ Ha Hb Heq) as H. cbn [List.concat] in H.
    apply Hne, prefix_of_inj.
    apply (same_length_same_prefix _ _ _ _ (Hlen ltac:(
      unfold prefixes_nest; apply orb_true_iff;
      exact (nested_or_different _ _ _ _ H))) H). }
  split; [exact Hgen|]. split; [exact nesting_kinds|].
  intros p p' programId a b Hlen Ha Hb.
  apply (Hgen KTgeEscrow KTgeEscrowVault [toBuffer p] [toBuffer p'] programId a b);
    [discriminate| |exact Ha|exact Hb].
  intros _. cbn [List.concat]. rewrite !app_nil_r. exact Hlen.
Qed.

Lemma byte_of_Z_to_N (v : Z) : Byte.to_N (byte_of_Z v) = Z.to_N (v mod 256).
Proof.
  unfold byte_of_Z.
  destruct (Byte.of_N (Z.to_N (v mod 256))) as [b|] eqn:Hb.
  - apply Byte.to_of_N, Hb.
  - apply Byte.of_N_None_iff in Hb.
    pose proof (Z.mod_pos_bound v 256 ltac:(lia)). lia.
Qed.

Lemma byte_of_Z_inj (a b : Z) :
  0 <= a < 256 -> 0 <= b < 256 -> byte_of_Z a = byte_of_Z b -> a = b.
Proof.
  intros Ha Hb H. apply (f_equal Byte.to_N) in H.
  rewrite !byte_of_Z_to_N, !Z.mod_small in H by lia. lia.
Qed.

Lemma le_bytes_inj (len : nat) (a b : Z) :
  0 <= a < 256 ^ Z.of_nat len -> 0 <= b < 256 ^ Z.of_nat len ->
  le_bytes len a = le_bytes len b -> a = b.
Proof.
  revert a b. induction len as [|len IH]; intros a b Ha Hb H.
  - change (256 ^ Z.of_nat 0) with 1 in *. lia.
  - rewrite Nat2Z.inj_succ, Z.pow_succ_r in Ha, Hb by lia.
    cbn [le_bytes] in H. injection H as Hlow Hhigh.
    apply (f_equal Byte.to_N) in Hlow. rewrite !byte_of_Z_to_N in Hlow.
    pose proof (Z.mod_pos_bound a 256 ltac:(lia)).
    pose proof (Z.mod_pos_bound b 256 ltac:(lia)).
    assert (Hmod : a mod 256 = b mod 256) by lia.
    assert (Hdiv : a / 256 = b / 256).
    { apply IH; [| |exact Hhigh].
      - split; [apply Z.div_pos; lia|apply Z.div_lt_upper_bound; lia].
      - split; [apply Z.div_pos; lia|apply Z.div_lt_upper_bound; lia]. }
    rewrite (Z.div_mod a 256), (Z.div_mod b 256) by lia. lia.
Qed.

Lemma length_le_bytes (len : nat) (v : Z) : List.length (le_bytes len v) = len.
Proof.
  revert v. induction len as [|len IH]; intros v; simpl; [reflexivity|].
  rewrite IH. reflexivity.
Qed.

Lemma app_inv_same_length {A : Type} (x1 x2 y1 y2 : list A) :
  List.length x1 = List.length x2 ->
  x1 ++ y1 = x2 ++ y2 -> x1 = x2 /\ y1 = y2.
Proof.
  revert x2. induction x1 as [|a x1 IH]; intros [|b x2] Hlen H;
    try discriminate Hlen.
  - split; [reflexivity|exact H].
  - injection H as -> H. simpl in Hlen.
    destruct (IH x2 ltac:(lia) H) as [-> ->]. split; reflexivity.
Qed.

(** X21. With a collision-free hash, two project identifiers below 2^64
    in magnitude that derive the same project address, or the same escrow
    address, have the same magnitude: they are the same identifier when
    neither is negative.  The sign is not encoded: an identifier and its
    opposite derive the same project address and the same escrow
    address. *)
Theorem project_addresses_tell_identifiers_apart :
  collision_free W ->
  forall id1 id2 programId,
    Z.abs id1 < 2 ^ 64 -> Z.abs id2 < 2 ^ 64 ->
    (forall a, getProjectPDA id1 programId = Ok a ->
               getProjectPDA id2 programId = Ok a -> Z.abs id1 = Z.abs id2) /\
    (forall a, getEscrowPDA id1 programId = Ok a ->
               getEscrowPDA id2 programId = Ok a -> Z.abs id1 = Z.abs id2) /\
    (0 <= id1 -> 0 <= id2 ->
     forall a, (getProjectPDA id1 programId = Ok a /\
                getProjectPDA id2 programId = Ok a) \/
               (getEscrowPDA id1 programId = Ok a /\
                getEscrowPDA id2 programId = Ok a) -> id1 = id2) /\
    getProjectPDA (- id1) programId = getProjectPDA id1 programId /\
    getEscrowPDA (- id1) programId = getEscrowPDA id1 programId.
Proof.
  intros Hfree id1 id2 programId H1 H2.
  destruct (BN_toArrayLike_le_fits id1 H1) as [E1 _].
  destruct (BN_toArrayLike_le_fits id2 H2) as [E2 _].
  assert (Hseed : le_bytes 8 (Z.abs id1) = le_bytes 8 (Z.abs id2) ->
                  Z.abs id1 = Z.abs id2).
  { apply (le_bytes_inj 8); change (256 ^ Z.of_nat 8) with (2 ^ 64); lia. }
  assert (Hproject : forall a, getProjectPDA id1 programId = Ok a ->
            getProjectPDA id2 programId = Ok a -> Z.abs id1 = Z.abs id2).
  { intros a Ha Hb.
    unfold getProjectPDA, ensureBN in Ha, Hb. rewrite E1 in Ha. rewrite E2 in Hb.
    cbn [bind] in Ha, Hb.
    apply pda_of_Ok in Ha as [ba Ha]. apply pda_of_Ok in Hb as [bb Hb].
    pose proof (Hfree _ _ _ _ _ _ _ Ha Hb eq_refl) as H.
    cbn [List.concat] in H. apply app_inv_head in H. rewrite !app_nil_r in H.
    exact (Hseed H). }
  assert (Hescrow : forall a, getEscrowPDA id1 programId = Ok a ->
            getEscrowPDA id2 programId = Ok a -> Z.abs id1 = Z.abs id2).
  { intros a Ha Hb.
    unfold getEscrowPDA, ensureBN in Ha, Hb. rewrite E1 in Ha. rewrite E2 in Hb.
    cbn [bind] in Ha, Hb.
    apply pda_of_Ok in Ha as [ba Ha]. apply pda_of_Ok in Hb as [bb Hb].
    pose proof (Hfree _ _ _ _ _ _ _ Ha Hb eq_refl) as H.
    cbn [List.concat] in H. apply app_inv_head in H. rewrite !app_nil_r in H.
    exact (Hseed H). }
  split; [exact Hproject|]. split; [exact Hescrow|]. split; [|split].
  - intros Hpos1 Hpos2 a [[Ha Hb]|[Ha Hb]].
    + pose proof (Hproject a Ha Hb). lia.
    + pose proof (Hescrow a Ha Hb). lia.
  - unfold getProjectPDA, ensureBN, BN_toArrayLike_le. rewrite Z.abs_opp.
    reflexivity.
  - unfold getEscrowPDA, ensureBN, BN_toArrayLike_le. rewrite Z.abs_opp.
    reflexivity.
Qed.

(** X22. With a collision-free hash, two milestones with the same address
    have the same project key and, for indices from 0 to 255, the same
    index; two investments with the same address, on project keys of the
    same length, have the same project key and the same mint key. *)
Theorem milestone_and_investment_addresses_tell_apart :
  collision_free W ->
  (forall p1 p2 i j programId a,
     0 <= i < 256 -> 0 <= j < 256 ->
     getMilestonePDA p1 i programId = Ok a ->
     getMilestonePDA p2 j programId = Ok a ->
     toBuffer p1 = toBuffer p2 /\ i = j)
  /\
  (forall p1 p2 q1 q2 programId a,
     List.length (toBuffer p1) = List.length (toBuffer p2) ->
     getInvestmentPDA p1 q1 programId = Ok a ->
     getInvestmentPDA p2 q2 programId = Ok a ->
     toBuffer p1 = toBuffer p2 /\ toBuffer q1 = toBuffer q2).
Proof.
  intros Hfree. split.
  - intros p1 p2 i j programId a Hi Hj Ha Hb.
    apply pda_of_Ok in Ha as [ba Ha]. apply pda_of_Ok in Hb as [bb Hb].
    pose proof (Hfree _ _ _ _ _ _ _ Ha Hb eq_refl) as H.
    cbn [List.concat Buffer_from_array map] in H.
    apply app_inv_head in H. rewrite !app_nil_r in H.
    assert (Hlen : List.length (toBuffer p1) = List.length (toBuffer p2)).
    { apply (f_equal (@List.length _)) in H. rewrite !length_app in H.
      simpl in H. lia. }
    destruct (app_inv_same_length _ _ _ _ Hlen H) as [Hp Hlast].
    split; [exact Hp|]. injection Hlast as Hbyte.
    apply byte_of_Z_inj; assumption.
  - intros p1 p2 q1 q2 programId a Hlen Ha Hb.
    apply pda_of_Ok in Ha as [ba Ha]. apply pda_of_Ok in Hb as [bb Hb].
    pose proof (Hfree _ _ _ _ _ _ _ Ha Hb eq_refl) as H.
    cbn [List.concat] in H.
    apply app_inv_head in H. rewrite !app_nil_r in H.
    exact (app_inv_same_length _ _ _ _ Hlen H).
Qed.

(** X23. With a collision-free hash, the Metaplex metadata address of a
    mint is never the master edition address of a mint whose key has the
    same length, and two mints with the same metadata address have the
    same key. *)
Theorem metadata_and_master_edition_differ :
  collision_free W ->
  forall TOKEN_METADATA_PROGRAM_ID mint mint' a,
    getMetadataPDA TOKEN_METADATA_PROGRAM_ID mint = Ok a ->
    (List.length (toBuffer mint) = List.length (toBuffer mint') ->
     getMasterEditionPDA TOKEN_METADATA_PROGRAM_ID mint' <> Ok a) /\
    (getMetadataPDA TOKEN_METADATA_PROGRAM_ID mint' = Ok a ->
     toBuffer mint = toBuffer mint').
Proof.
  intros Hfree tm mint mint' a Ha.
  apply pda_of_Ok in Ha as [ba Ha]. split.
  - intros Hlen Hb. apply pda_of_Ok in Hb as [bb Hb].
    pose proof (Hfree _ _ _ _ _ _ _ Ha Hb eq_refl) as H.
    apply (f_equal (@List.length _)) in H.
    cbn [List.concat] in H. rewrite !length_app in H. simpl in H. lia.
  - intros Hb. apply pda_of_Ok in Hb as [bb Hb].
    pose proof (Hfree _ _ _ _ _ _ _ Ha Hb eq_refl) as H.
    cbn [List.concat] in H.
    apply app_inv_head in H. apply app_inv_head in H.
    rewrite !app_nil_r in H. exact H.
Qed.

End DistinctAddresses.

Lemma kinds_never_collide_on_any_seeds_witness :
  collision_free transparent_web3 /\
  (forall a b,
     Pdas.getTgeEscrowPDA sample_project sample_program = Ok a ->
     Pdas.getTgeEscrowVaultPDA other_project sample_program = Ok b ->
     a <> b).
Proof.
  split; [exact transparent_web3_collision_free|].
  intros a b.
  exact (proj2 (proj2 (kinds_never_collide_on_any_seeds
                         transparent_web3_collision_free))
           sample_project other_project sample_program a b eq_refl).
Defined.

Lemma project_addresses_tell_identifiers_apart_witness :
  collision_free transparent_web3 /\
  Z.abs 7 < 2 ^ 64 /\ Z.abs 8 < 2 ^ 64 /\
  Pdas.getProjectPDA 7 sample_program <> Pdas.getProjectPDA 8 sample_program /\
  Pdas.getProjectPDA (- 7) sample_program = Pdas.getProjectPDA 7 sample_program.
Proof.
  assert (H7 : Z.abs 7 < 2 ^ 64) by (vm_compute; reflexivity).
  assert (H8 : Z.abs 8 < 2 ^ 64) by (vm_compute; reflexivity).
  split; [exact transparent_web3_collision_free|].
  split; [exact H7|]. split; [exact H8|].
  pose proof (project_addresses_tell_identifiers_apart
                transparent_web3_collision_free 7 8 sample_program H7 H8)
    as (Hproject & _ & _ & Hsign & _).
  split; [|exact Hsign].
  intros Heq. pose proof (Hproject _ eq_refl (eq_sym Heq)) as H.
  discriminate H.
Defined.

Lemma milestone_and_investment_addresses_tell_apart_witness :
  collision_free transparent_web3 /\
  Pdas.getMilestonePDA sample_project 1 sample_program
  <> Pdas.getMilestonePDA sample_project 2 sample_program.
Proof.
  split; [exact transparent_web3_collision_free|].
  intros Heq.
  pose proof (proj1 (milestone_and_investment_addresses_tell_apart
                       transparent_web3_collision_free)
                sample_project sample_project 1 2 sample_program _
                ltac:(lia) ltac:(lia) eq_refl (eq_sym Heq)) as [_ H].
  discriminate H.
Defined.

Lemma metadata_and_master_edition_differ_witness :
  collision_free transparent_web3 /\
  Instructions.getMasterEditionPDA sample_program sample_mint
  <> Instructions.getMetadataPDA sample_program sample_mint.
Proof.
  split; [exact transparent_web3_collision_free|].
  intros Heq.
  exact (proj1 (metadata_and_master_edition_differ
                  transparent_web3_collision_free
                  sample_program sample_mint sample_mint _ eq_refl)
           eq_refl Heq).
Defined.

(** ** Refund claims *)

Section RefundClaims.
Import Pdas Instructions.
Context {W : Web3} {L : Ledger} {RL : RemainingLedger}.

Lemma refund_milestones_accounts (projectPda programId : PublicKey) (n : nat) :
  (forall i, is_ok (getMilestonePDA projectPda i programId) = true) ->
  forall i collected,
  exists pushed,
    refund_milestones projectPda programId n i collected = Ok (collected ++ pushed) /\
    List.length pushed = n /\
    (forall k m, nth_error pushed k = Some m ->
       getMilestonePDA projectPda (i + Z.of_nat k) programId = Ok (pubkey m) /\
       isWritable m = false /\ isSigner m = false).
Proof.
  intros Hhash. induction n as [|n IH]; intros i collected.
  - exists []. cbn [refund_milestones]. rewrite app_nil_r.
    split; [reflexivity|]. split; [reflexivity|].
    intros [|k] m H; discriminate H.
  - cbn [refund_milestones].
    specialize (Hhash i) as Hi.
    destruct (getMilestonePDA projectPda i programId) as [milestonePda|e] eqn:Ei;
      [|discriminate Hi].
    cbn [bind].
    destruct (IH (i + 1)
                (collected ++ [{| pubkey := milestonePda;
                                  isWritable := false;
                                  isSigner := false |}]))
      as (pushed & Hrun & Hlen & Heach).
    exists ({| pubkey := milestonePda; isWritable := false; isSigner := false |}
            :: pushed).
    rewrite Hrun, <- app_assoc. split; [reflexivity|].
    split; [simpl; rewrite Hlen; reflexivity|].
    intros [|k] m Hm.
    + injection Hm as <-. cbn [pubkey isWritable isSigner].
      rewrite Z.add_0_r. repeat split. exact Ei.
    + cbn [nth_error] in Hm. destruct (Heach k m Hm) as (Hk & Hw & Hs).
      repeat split; [|exact Hw|exact Hs].
      rewrite <- Hk. f_equal. lia.
Qed.

(** X24. [claimRefund] derives everything before it submits: when the
    project address cannot be derived the error is thrown and the ledger is
    left as it was.  Otherwise, when the hash answers, the ledger receives
    with the instruction exactly [milestoneCount] accounts, one when the
    count is left out and none when it is not positive; the one at position
    [k] is the address of milestone [k] of the project, read-only and not a
    signer. *)
Theorem claimRefund_passes_the_milestone_accounts
    (program : Program) (a : ClaimRefundArgs) (investor : PublicKey)
    (st : LedgerState) :
  (forall e,
     getProjectPDA (refund_projectId a) (programId program) = Throw e ->
     claimRefund program a investor st = (Throw e, st))
  /\
  (forall projectPda investmentPda,
     getProjectPDA (refund_projectId a) (programId program) = Ok projectPda ->
     getInvestmentPDA projectPda (nftMint a) (programId program) = Ok investmentPda ->
     (forall i, is_ok (getMilestonePDA projectPda i (programId program)) = true) ->
     exists remainingAccounts,
       claimRefund program a investor st
       = rpc_remaining
           {| method := "claimRefund";
              args := [];
              accounts := [("project", projectPda);
                           ("investment", investmentPda);
                           ("nftMint", nftMint a);
                           ("investorNftAccount", investorNftAccount a);
                           ("investor", investor);
                           ("investorTokenAccount", investorUsdcAccount a);
                           ("escrowTokenAccount", escrowTokenAccount a)] |}
           remainingAccounts st /\
       List.length remainingAccounts
       = Z.to_nat (match milestoneCount a with Some c => c | None => 1 end) /\
       (forall k m, nth_error remainingAccounts k = Some m ->
          getMilestonePDA projectPda (Z.of_nat k) (programId program)
            = Ok (pubkey m) /\
          isWritable m = false /\ isSigner m = false)).
Proof.
  split.
  - intros e He. unfold claimRefund. rewrite He. reflexivity.
  - intros projectPda investmentPda Hp Hi Hhash.
    destruct (refund_milestones_accounts projectPda (programId program)
                (Z.to_nat (match milestoneCount a with Some c => c | None => 1 end))
                Hhash 0 [])
      as (pushed & Hrun & Hlen & Heach).
    exists pushed. unfold claimRefund. rewrite Hp. cbn [bind]. rewrite Hi.
    cbn [bind]. rewrite Hrun. cbn [bind app].
    split; [reflexivity|]. split; [exact Hlen|].
    intros k m Hm. exact (Heach k m Hm).
Qed.

End RefundClaims.

Lemma claimRefund_passes_the_milestone_accounts_witness :
  Pdas.getProjectPDA 7 sample_program
    = Ok (Buffer_from_string "project" ++ le_bytes 8 7 ++ sample_program) /\
  accounts_after_refund (Some 3) 0 = 3%nat /\
  accounts_after_refund None 0 = 1%nat.
Proof.
  split; [reflexivity|].
  pose proof (fun count =>
    proj2 (@claimRefund_passes_the_milestone_accounts
             transparent_web3 accepting_ledger counting_ledger
             {| Instructions.programId := sample_program |}
             (sample_refund count) sample_mint 0%nat)
          _ _ eq_refl eq_refl (fun i => eq_refl)) as H.
  unfold accounts_after_refund. split.
  - destruct (H (Some 3)) as (remaining & Hrun & Hlen & _).
    rewrite Hrun. cbn [Instructions.rpc_remaining counting_ledger snd].
    rewrite Hlen. reflexivity.
  - destruct (H None) as (remaining & Hrun & Hlen & _).
    rewrite Hrun. cbn [Instructions.rpc_remaining counting_ledger snd].
    rewrite Hlen. reflexivity.
Defined.

(** ** Reading accounts *)

Section ReadingAccounts.
Context {W : Web3} {R : Reader}.
Import Pdas Instructions Accounts.

Lemma null_when_absent_null {A : Type} (attempt : result A) :
  null_when_absent attempt = Ok None <->
  exists error,
    attempt = Throw error /\
    String_includes "Account does not exist" (error_message error) = true.
Proof.
  unfold null_when_absent. split.
  - destruct attempt as [account|error]; [discriminate|].
    destruct (String_includes _ _) eqn:Hinc; [|discriminate].
    intros _. exists error. split; [reflexivity|exact Hinc].
  - intros (error & -> & ->). reflexivity.
Qed.

(** X25. [fetchProject] is [fetchProjectByPda] at the derived address.  It
    answers null exactly when the read fails with an error whose message
    includes 'Account does not exist'; any other error is thrown again as
    it is, and so is the assertion error of an identifier of 2^64 or more,
    which is not reported as a missing project.  A rejection by the ledger
    is judged by the message of the [Error], not by the message of the
    program error it carries.  [fetchAdminConfig] has no such case: every
    error of the read is thrown. *)
Theorem fetchProject_null_only_when_absent (program : Program) :
  (forall projectId projectPda,
     getProjectPDA projectId (programId program) = Ok projectPda ->
     fetchProject program projectId = fetchProjectByPda program projectPda)
  /\
  (forall projectPda,
     fetchProjectByPda program projectPda = Ok None <->
     exists error,
       fetch "project" projectPda = Throw error /\
       String_includes "Account does not exist" (error_message error) = true)
  /\
  (forall projectPda error,
     fetch "project" projectPda = Throw error ->
     String_includes "Account does not exist" (error_message error) = false ->
     fetchProjectByPda program projectPda = Throw error)
  /\
  (forall projectId,
     2 ^ 64 <= Z.abs projectId ->
     fetchProject program projectId
     = Throw (AssertionError "byte array longer than desired length"))
  /\
  (forall projectPda code errorMessage message,
     fetch "project" projectPda = Throw (AnchorError code errorMessage message) ->
     String_includes "Account does not exist" message = false ->
     fetchProjectByPda program projectPda
     = Throw (AnchorError code errorMessage message))
  /\
  (forall adminConfigPda error,
     getAdminConfigPDA (programId program) = Ok adminConfigPda ->
     fetch "adminConfig" adminConfigPda = Throw error ->
     fetchAdminConfig program = Throw error).
Proof.
  split; [|split; [|split; [|split; [|split]]]].
  - intros projectId projectPda Hp. unfold fetchProject, fetchProjectByPda.
    rewrite Hp. reflexivity.
  - intros projectPda. apply null_when_absent_null.
  - intros projectPda error Hf Hinc. unfold fetchProjectByPda, null_when_absent.
    rewrite Hf, Hinc. reflexivity.
  - intros projectId Hwide. unfold fetchProject, getProjectPDA, ensureBN.
    rewrite (BN_toArrayLike_le_too_wide _ Hwide). reflexivity.
  - intros projectPda code errorMessage message Hf Hinc.
    unfold fetchProjectByPda, null_when_absent.
    rewrite Hf. cbn [error_message]. rewrite Hinc. reflexivity.
  - intros adminConfigPda error Hp Hf. unfold fetchAdminConfig.
    rewrite Hp. cbn [bind]. exact Hf.
Qed.

(** X26. [accountExists] answers true exactly when [fetchProjectByPda]
    finds the account; it never throws, so that it answers false both for
    a missing account and for an error that [fetchProjectByPda] throws. *)
Theorem accountExists_agrees_with_fetchProjectByPda
    (program : Program) (projectPda : PublicKey) :
  (accountExists program "project" projectPda = true <->
   exists account, fetchProjectByPda program projectPda = Ok (Some account))
  /\
  (fetchProjectByPda program projectPda = Ok None ->
   accountExists program "project" projectPda = false)
  /\
  (forall error,
     fetchProjectByPda program projectPda = Throw error ->
     accountExists program "project" projectPda = false).
Proof.
  unfold accountExists, fetchProjectByPda, null_when_absent.
  destruct (fetch "project" projectPda) as [account|error].
  - split; [|split].
    + split; [intros _; exists account; reflexivity|reflexivity].
    + discriminate.
    + intros error H. discriminate H.
  - destruct (String_includes _ _).
    + split; [|split]; [|reflexivity|reflexivity].
      split; [discriminate|intros [account H]; discriminate H].
    + split; [|split]; [|reflexivity|reflexivity].
      split; [discriminate|intros [account H]; discriminate H].
Qed.

End ReadingAccounts.
